(** * The library catalog (Django-MDN): models, views and their properties

    A shallow embedding of [catalog/models.py] and [catalog/views.py].

    The application is a set of declarations interpreted by Django; the
    embedding therefore has two layers.  The first gives the part of
    Django's behaviour the declarations rely on (dates, users and
    permissions, query sets, [Model.save], [Model.delete] with its
    [on_delete] handlers, [ModelForm] cleaning, [Paginator]).  The second
    follows the source declaration by declaration.

    Tables are lists of rows in storage order.  Primary-key and [unique]
    constraints are not built into the representation: they are checked
    where Django checks them, and proved as invariants.

    Three things the source depends on are not fixed by it and are taken as
    interfaces: the database backend (text collation and the place of NULLs
    in an ascending sort), the URL configuration ([catalog/urls.py]) behind
    [reverse], and [catalog/forms.py] with its [RenewBookForm]. *)

From Stdlib Require Import ZArith List String Ascii Bool Lia Sorted Permutation.
Import ListNotations.
Open Scope string_scope.
Open Scope Z_scope.
Open Scope list_scope.

Set Implicit Arguments.

(** ** Python's [datetime]

    A [date] is represented by its proleptic Gregorian ordinal
    ([date.toordinal()], 1 for 0001-01-01): comparison of dates is
    comparison of ordinals, and [date + timedelta] is computed on the
    ordinal and raises [OverflowError] outside [1 .. MAXORDINAL]. *)
Module datetime.

Definition date := Z.

(** [date.max.toordinal()], 9999-12-31. *)
Definition MAXORDINAL : Z := 3652059.

Definition valid (d : date) : Prop := 1 <= d <= MAXORDINAL.

(** Only whole days occur in this program. *)
Record timedelta := { days : Z }.

(** [timedelta(weeks=w)]: a week is converted to seven days. *)
Definition timedelta_weeks (w : Z) : timedelta := {| days := 7 * w |}.

(** [date.__add__]; [None] stands for [OverflowError]. *)
Definition add (d : date) (t : timedelta) : option date :=
  let o := d + days t in
  if (0 <? o) && (o <=? MAXORDINAL) then Some o else None.

(** [a > b] on dates. *)
Definition gt (a b : date) : bool := b <? a.

End datetime.

Abbreviation date := datetime.date.

(** ** Database backend *)

Definition total {A} (leb : A -> A -> bool) : Prop :=
  forall x y, leb x y = true \/ leb y x = true.

Definition transitive {A} (leb : A -> A -> bool) : Prop :=
  forall x y z, leb x y = true -> leb y z = true -> leb x z = true.

(** What [ORDER BY] leaves to the database: the collation of text columns,
    a total preorder, and whether NULL sorts before or after every value in
    ascending order. *)
Class Backend := {
  collate : string -> string -> bool;
  collate_total : total collate;
  collate_trans : transitive collate;
  nulls_first : bool
}.

(** ** Query sets *)

Section Ordering.
Context {R K : Type}.

(** Ordering by one column. *)
Definition on_key (leb : K -> K -> bool) (key : R -> K) : R -> R -> bool :=
  fun a b => leb (key a) (key b).

(** A nullable column. *)
Definition nullable (nf : bool) (leb : K -> K -> bool)
  : option K -> option K -> bool :=
  fun a b =>
    match a, b with
    | None, None => true
    | None, Some _ => nf
    | Some _, None => negb nf
    | Some x, Some y => leb x y
    end.

(** [ORDER BY c1, c2]: [c2] decides among rows that [c1] does not
    separate. *)
Definition then_by (c1 c2 : R -> R -> bool) : R -> R -> bool :=
  fun a b => negb (c1 b a) || (c1 a b && c2 a b).

(** The sort itself.  Rows that the ordering does not separate keep their
    storage order; a database may return them in any order. *)
Fixpoint insert_row (leb : R -> R -> bool) (x : R) (l : list R) : list R :=
  match l with
  | [] => [x]
  | y :: l' => if leb x y then x :: l else y :: insert_row leb x l'
  end.

Definition order_by (leb : R -> R -> bool) (l : list R) : list R :=
  fold_right (insert_row leb) [] l.

End Ordering.

(** [QuerySet.get]. *)
Inductive get_result (M : Type) :=
| Found (obj : M)
| DoesNotExist
| MultipleObjectsReturned.
Arguments DoesNotExist {M}.
Arguments MultipleObjectsReturned {M}.

Section Manager.
Context {M : Type} (pk : M -> Z).

Definition get (key : Z) (table : list M) : get_result M :=
  match filter (fun r => pk r =? key) table with
  | [] => DoesNotExist
  | [obj] => Found obj
  | _ => MultipleObjectsReturned
  end.

(** [Model.save()] of an object that has a primary key: [UPDATE ... WHERE
    pk = obj.pk], and [INSERT] when no row was updated. *)
Definition save (obj : M) (table : list M) : list M :=
  if existsb (fun r => pk r =? pk obj) table
  then map (fun r => if pk r =? pk obj then obj else r) table
  else table ++ [obj].

(** The key an [AutoField] gets on [INSERT]: larger than every key in the
    table. *)
Definition next_pk (table : list M) : Z :=
  1 + fold_right (fun r m => Z.max (pk r) m) 0 table.

(** [DELETE ... WHERE pk = key]. *)
Definition delete_pk (key : Z) (table : list M) : list M :=
  filter (fun r => negb (pk r =? key)) table.

End Manager.

(** ** [on_delete] *)

Inductive on_delete := CASCADE | PROTECT | RESTRICT | SET_NULL.

Inductive exception :=
| ProtectedError
| RestrictedError
| NoReverseMatch
| OverflowError
| MultipleObjects.

(** What the deletion collector does with the rows of one referencing
    table.  [refs r] tells whether row [r] references the object being
    deleted.  No table of this schema is referenced by a row that is
    itself deleted in cascade, so one level suffices, and a restricted row
    is never also collected through a cascade. *)
Definition collect {R} (how : on_delete) (refs : R -> bool) (set_null : R -> R)
    (table : list R) : exception + list R :=
  match how with
  | CASCADE => inr (filter (fun r => negb (refs r)) table)
  | PROTECT => if existsb refs table then inl ProtectedError else inr table
  | RESTRICT => if existsb refs table then inl RestrictedError else inr table
  | SET_NULL => inr (map (fun r => if refs r then set_null r else r) table)
  end.

Definition references (fk : option Z) (key : Z) : bool :=
  match fk with
  | Some k => k =? key
  | None => false
  end.

(** ** [django.contrib.auth] *)

Module User.
Record t := {
  id : Z;
  is_active : bool;
  is_staff : bool;
  is_superuser : bool;
  (** [get_all_permissions()], as ["app_label.codename"] strings *)
  permissions : list string
}.
End User.

(** [request.user]. *)
Inductive request_user :=
| AnonymousUser
| LoggedIn (u : User.t).

Definition is_authenticated (u : request_user) : bool :=
  match u with
  | AnonymousUser => false
  | LoggedIn _ => true
  end.

(** [user.has_perm]: an active superuser has every permission; otherwise
    the model backend looks the permission up, for active users only. *)
Definition has_perm (u : request_user) (perm : string) : bool :=
  match u with
  | AnonymousUser => false
  | LoggedIn u =>
      User.is_active u &&
      (User.is_superuser u || existsb (String.eqb perm) (User.permissions u))
  end.

(** ** [catalog/models.py] *)

(** The routes are declared in [catalog/urls.py], outside the modules
    embedded here.  [reverse name args] is the URL of the route called
    [name] for [args], or [None] for [NoReverseMatch]. *)
Class URLconf := {
  reverse : string -> list string -> option string
}.

(** [str(id)] where [id] is Python's builtin function. *)
Definition str_builtin_id : string := "<built-in function id>".

(** [str(n)] of an integer primary key. *)
Definition str_digit (d : Z) : string :=
  String (ascii_of_N (48 + Z.to_N d)) EmptyString.

Fixpoint str_nat_aux (fuel : nat) (n : Z) (acc : string) : string :=
  match fuel with
  | O => acc
  | S fuel' =>
      let acc' := String.append (str_digit (n mod 10)) acc in
      if n <? 10 then acc' else str_nat_aux fuel' (n / 10) acc'
  end.

Definition str_Z (n : Z) : string :=
  if n <? 0
  then String.append "-" (str_nat_aux (S (Z.to_nat (Z.log2 (- n)))) (- n) "")
  else str_nat_aux (S (Z.to_nat (Z.log2 n))) n "".

Module Genre.
Record t := {
  id : Z;
  name : string
}.

(** [Meta.ordering = ['name']] *)
Definition ordering `{Backend} : t -> t -> bool := on_key collate name.

Definition get_absolute_url `{URLconf} (self : t) : option string :=
  reverse "books" [].
End Genre.

Module Book.
Record t := {
  id : Z;
  title : string;
  author : option Z;
  summary : string;
  isbn : string
}.

(** [author = ForeignKey('Author', on_delete=models.SET_NULL, null=True)] *)
Definition author_on_delete : on_delete := SET_NULL.

Definition isbn_max_length : nat := 13.

Definition set_author (a : option Z) (self : t) : t :=
  {| id := id self; title := title self; author := a;
     summary := summary self; isbn := isbn self |}.

(** [reverse('book-detail', args=[str(id)])]: the name [id] is not an
    attribute of [self] here, it is the builtin. *)
Definition get_absolute_url `{URLconf} (self : t) : option string :=
  reverse "book-detail" [str_builtin_id].
End Book.

Module BookInstance.
Record t := {
  id : Z;                   (* UUID *)
  book : option Z;
  imprint : string;
  due_back : option date;
  borrower : option Z;
  status : string;
  language : string
}.

(** [book = ForeignKey('Book', on_delete=models.RESTRICT, null=True)] *)
Definition book_on_delete : on_delete := RESTRICT.

(** [borrower = ForeignKey(User, on_delete=models.SET_NULL, ...)] *)
Definition borrower_on_delete : on_delete := SET_NULL.

Definition LOAN_STATUS : list (string * string) :=
  [("m", "Maintenance"); ("o", "On loan"); ("a", "Available");
   ("r", "Reserved")].

Definition LANGUAGES : list (string * string) :=
  [("en", "English"); ("ru", "Russian"); ("de", "German");
   ("fr", "France")].

Definition set_book (b : option Z) (self : t) : t :=
  {| id := id self; book := b; imprint := imprint self;
     due_back := due_back self; borrower := borrower self;
     status := status self; language := language self |}.

Definition set_due_back (d : option date) (self : t) : t :=
  {| id := id self; book := book self; imprint := imprint self;
     due_back := d; borrower := borrower self; status := status self;
     language := language self |}.

(** [Meta.ordering = ['due_back']] *)
Definition ordering `{Backend} : t -> t -> bool :=
  on_key (nullable nulls_first Z.leb) due_back.

(** [bool(self.due_back and date.today() > self.due_back)].  [None] is
    false and ends the conjunction; a date is always true. *)
Definition is_overdue (today : date) (self : t) : bool :=
  match due_back self with
  | None => false
  | Some d => datetime.gt today d
  end.
End BookInstance.

Module Author.
Record t := {
  id : Z;
  first_name : string;
  last_name : string;
  date_of_birth : option date;
  date_of_death : option date
}.

(** [Meta.ordering = ['last_name', 'first_name']] *)
Definition ordering `{Backend} : t -> t -> bool :=
  then_by (on_key collate last_name) (on_key collate first_name).

Definition get_absolute_url `{URLconf} (self : t) : option string :=
  reverse "author-detail" [str_Z (id self)].
End Author.

(** ** The database *)

Record Catalog := {
  Genre_objects : list Genre.t;
  Author_objects : list Author.t;
  Book_objects : list Book.t;
  (** the table behind [Book.genre]: rows [(book_id, genre_id)] *)
  Book_genre : list (Z * Z);
  BookInstance_objects : list BookInstance.t
}.

Definition empty_catalog : Catalog :=
  {| Genre_objects := []; Author_objects := []; Book_objects := [];
     Book_genre := []; BookInstance_objects := [] |}.

Definition set_BookInstance_objects (l : list BookInstance.t) (db : Catalog)
  : Catalog :=
  {| Genre_objects := Genre_objects db; Author_objects := Author_objects db;
     Book_objects := Book_objects db; Book_genre := Book_genre db;
     BookInstance_objects := l |}.

(** [book_instance.save()] *)
Definition BookInstance_save (self : BookInstance.t) (db : Catalog) : Catalog :=
  set_BookInstance_objects
    (save BookInstance.id self (BookInstance_objects db)) db.

(** [Author.delete()]: the collector visits [Book.author], the only
    relation that points to an author, then the row is deleted. *)
Definition Author_delete (self : Author.t) (db : Catalog)
  : exception + Catalog :=
  match collect Book.author_on_delete
          (fun b => references (Book.author b) (Author.id self))
          (Book.set_author None) (Book_objects db) with
  | inl e => inl e
  | inr books =>
      inr {| Genre_objects := Genre_objects db;
             Author_objects :=
               delete_pk Author.id (Author.id self) (Author_objects db);
             Book_objects := books;
             Book_genre := Book_genre db;
             BookInstance_objects := BookInstance_objects db |}
  end.

(** [Book.delete()]: the collector visits [BookInstance.book] and the rows
    of the many-to-many table, which cascade.  Nothing is written when the
    collector raises. *)
Definition Book_delete (self : Book.t) (db : Catalog) : exception + Catalog :=
  match collect BookInstance.book_on_delete
          (fun i => references (BookInstance.book i) (Book.id self))
          (BookInstance.set_book None) (BookInstance_objects db) with
  | inl e => inl e
  | inr instances =>
      match collect CASCADE (fun row : Z * Z => fst row =? Book.id self)
              (fun row => row) (Book_genre db) with
      | inl e => inl e
      | inr through =>
          inr {| Genre_objects := Genre_objects db;
                 Author_objects := Author_objects db;
                 Book_objects :=
                   delete_pk Book.id (Book.id self) (Book_objects db);
                 Book_genre := through;
                 BookInstance_objects := instances |}
      end
  end.

(** ** Requests and responses *)

(** [request.POST] as submitted. *)
Definition QueryDict := list (string * string).

Record HttpRequest (D : Type) := {
  method : string;
  user : request_user;
  POST : D
}.

Inductive HttpResponse (C : Type) :=
| HttpResponseRedirect (url : string)
| redirect_to_login
| HttpResponseForbidden                      (* PermissionDenied *)
| HttpResponseNotFound                       (* Http404 *)
| HttpResponseServerError (e : exception)    (* an uncaught exception *)
| render (template : string) (context : C).
Arguments HttpResponseRedirect {C}.
Arguments redirect_to_login {C}.
Arguments HttpResponseForbidden {C}.
Arguments HttpResponseNotFound {C}.
Arguments HttpResponseServerError {C}.

Definition View (D C : Type) : Type :=
  HttpRequest D -> Catalog -> HttpResponse C * Catalog.

(** [@login_required] *)
Definition login_required {D C} (view : View D C) : View D C :=
  fun request db =>
    if is_authenticated (user request) then view request db
    else (redirect_to_login, db).

(** [@permission_required(perm, raise_exception=...)] *)
Definition permission_required {D C} (perm : string) (raise_exception : bool)
    (view : View D C) : View D C :=
  fun request db =>
    if has_perm (user request) perm then view request db
    else if raise_exception then (HttpResponseForbidden, db)
    else (redirect_to_login, db).

(** [AccessMixin.handle_no_permission] with [raise_exception = False] *)
Definition handle_no_permission {C} (u : request_user) : HttpResponse C :=
  if is_authenticated u then HttpResponseForbidden else redirect_to_login.

Definition LoginRequiredMixin {D C} (view : View D C) : View D C :=
  fun request db =>
    if is_authenticated (user request) then view request db
    else (handle_no_permission (user request), db).

Definition PermissionRequiredMixin {D C} (permission_required : string)
    (view : View D C) : View D C :=
  fun request db =>
    if has_perm (user request) permission_required then view request db
    else (handle_no_permission (user request), db).

(** [get_object_or_404] and what follows it: [DoesNotExist] becomes
    [Http404], [MultipleObjectsReturned] is not caught. *)
Definition with_object_or_404 {M C X} (r : get_result M)
    (k : M -> HttpResponse C * X) (x : X) : HttpResponse C * X :=
  match r with
  | Found obj => k obj
  | DoesNotExist => (HttpResponseNotFound, x)
  | MultipleObjectsReturned => (HttpResponseServerError MultipleObjects, x)
  end.

(** ** [Paginator] *)

Section Paginator.
Context {R : Type}.

(** [ceil(max(1, count) / per_page)]: orphans are 0 and an empty first
    page is allowed. *)
Definition num_pages (per_page count : nat) : nat :=
  ((Nat.max 1 count + per_page - 1) / per_page)%nat.

(** [Paginator.page(number)]; [None] stands for [InvalidPage]. *)
Definition Paginator_page (per_page : nat) (object_list : list R)
    (number : nat) : option (list R) :=
  if ((1 <=? number) && (number <=? num_pages per_page (List.length object_list)))%nat
  then Some (firstn per_page (skipn ((number - 1) * per_page) object_list))
  else None.

(** [ListView.get] with [paginate_by] set. *)
Definition ListView_get (paginate_by : nat) (template_name : string)
    (queryset : list R) (page : nat) : HttpResponse (list R) :=
  match Paginator_page paginate_by queryset page with
  | Some object_list => render template_name object_list
  | None => HttpResponseNotFound
  end.
End Paginator.

(** ** [catalog/views.py] *)

(** [catalog/forms.py] is outside the modules embedded here.  All that the
    view uses of [RenewBookForm(request.POST)] is [is_valid()] and
    [cleaned_data['renewal_date']]: [None] for an invalid form, otherwise
    the cleaned value, which for a date field is a date or [None]. *)
Class Forms := {
  RenewBookForm_clean : date -> QueryDict -> option (option date)
}.

Module BookListView.
Definition paginate_by : nat := 10.

Definition get_queryset (db : Catalog) : list Book.t := Book_objects db.

Definition get (page : nat) (db : Catalog) : HttpResponse (list Book.t) :=
  ListView_get paginate_by "catalog/book_list.html" (get_queryset db) page.
End BookListView.

Module AuthorListView.
Definition paginate_by : nat := 10.

(** No [get_queryset] in the source: [Author.objects.all()], in the
    model's ordering. *)
Definition get_queryset `{Backend} (db : Catalog) : list Author.t :=
  order_by Author.ordering (Author_objects db).

Definition get `{Backend} (page : nat) (db : Catalog)
  : HttpResponse (list Author.t) :=
  ListView_get paginate_by "catalog/author_list.html" (get_queryset db) page.
End AuthorListView.

(** [Genre.objects.all()] and [BookInstance.objects.all()] *)
Definition Genre_objects_all `{Backend} (db : Catalog) : list Genre.t :=
  order_by Genre.ordering (Genre_objects db).

Definition BookInstance_objects_all `{Backend} (db : Catalog)
  : list BookInstance.t :=
  order_by BookInstance.ordering (BookInstance_objects db).

(** [.order_by('due_back')] *)
Definition order_by_due_back `{Backend} (l : list BookInstance.t)
  : list BookInstance.t :=
  order_by (on_key (nullable nulls_first Z.leb) BookInstance.due_back) l.

Module LoanedBooksByUserListView.
Definition paginate_by : nat := 10.
Definition template_name : string :=
  "catalog/bookinstance_list_borrowed_user.html".

Definition get_queryset `{Backend} (request_user : User.t) (db : Catalog)
  : list BookInstance.t :=
  order_by_due_back
    (filter (fun i => String.eqb (BookInstance.status i) "o")
       (filter (fun i => references (BookInstance.borrower i)
                           (User.id request_user))
          (BookInstance_objects db))).

Definition get `{Backend} (u : request_user) (page : nat) (db : Catalog)
  : HttpResponse (list BookInstance.t) :=
  match u with
  | LoggedIn usr =>
      ListView_get paginate_by template_name (get_queryset usr db) page
  | AnonymousUser => handle_no_permission u
  end.
End LoanedBooksByUserListView.

Module BorrowedBooksListView.
Definition paginate_by : nat := 10.
Definition permission_required : string := "user.is_staff".
Definition template_name : string := "catalog/borrowed_books_list.html".

Definition get_queryset `{Backend} (db : Catalog) : list BookInstance.t :=
  order_by_due_back
    (filter (fun i => String.eqb (BookInstance.status i) "o")
       (BookInstance_objects db)).

Definition get `{Backend} (u : request_user) (page : nat) (db : Catalog)
  : HttpResponse (list BookInstance.t) :=
  if has_perm u permission_required
  then ListView_get paginate_by template_name (get_queryset db) page
  else handle_no_permission u.
End BorrowedBooksListView.

(** The form shown by the renewal page. *)
Inductive RenewBookForm :=
| bound_form (data : QueryDict)
| unbound_form (initial_renewal_date : date).

Record renew_context := {
  form : RenewBookForm;
  book_instance : BookInstance.t
}.

(** The function under the decorators. *)
Definition renew_book_librarian_body `{URLconf} `{Forms} (today : date)
    (pk : Z) : View QueryDict renew_context :=
  fun request db =>
    with_object_or_404 (get BookInstance.id pk (BookInstance_objects db))
      (fun book_instance =>
         if String.eqb (method request) "POST" then
           match RenewBookForm_clean today (POST request) with
           | Some renewal_date =>
               let book_instance :=
                 BookInstance.set_due_back renewal_date book_instance in
               let db := BookInstance_save book_instance db in
               match reverse "borrowed-books" [] with
               | Some url => (HttpResponseRedirect url, db)
               | None => (HttpResponseServerError NoReverseMatch, db)
               end
           | None =>
               (render "catalog/book_renew_librarian.html"
                  {| form := bound_form (POST request);
                     book_instance := book_instance |}, db)
           end
         else
           match datetime.add today (datetime.timedelta_weeks 3) with
           | Some proposed_renewal_date =>
               (render "catalog/book_renew_librarian.html"
                  {| form := unbound_form proposed_renewal_date;
                     book_instance := book_instance |}, db)
           | None => (HttpResponseServerError OverflowError, db)
           end)
      db.

Definition renew_book_librarian `{URLconf} `{Forms} (today : date) (pk : Z)
  : View QueryDict renew_context :=
  login_required
    (permission_required "catalog.can_mark_returned" true
       (renew_book_librarian_body today pk)).

Module AuthorDelete.
Definition permission_required : string := "user.is_staff".

(** A POST request: the permission check of the mixin, then
    [DeleteView.post].  [success_url = reverse_lazy('authors')] is
    resolved before the object is deleted. *)
Definition post `{URLconf} (pk : Z) : View unit unit :=
  PermissionRequiredMixin permission_required
    (fun request db =>
       with_object_or_404 (get Author.id pk (Author_objects db))
         (fun object =>
            match reverse "authors" [] with
            | None => (HttpResponseServerError NoReverseMatch, db)
            | Some success_url =>
                match Author_delete object db with
                | inl e => (HttpResponseServerError e, db)
                | inr db' => (HttpResponseRedirect success_url, db')
                end
            end)
         db).
End AuthorDelete.

(** ** [ModelForm] for [Book]

    [BookCreate] has [fields = '__all__'], and the admin pages of
    [admin.py] build the same form. *)

(** [str.isspace] on the characters representable here (Latin-1). *)
Definition isspace (c : ascii) : bool :=
  let n := N_of_ascii c in
  ((9 <=? n) && (n <=? 13) || (28 <=? n) && (n <=? 32)
   || (n =? 133) || (n =? 160))%N.

Fixpoint lstrip (s : string) : string :=
  match s with
  | EmptyString => EmptyString
  | String c s' => if isspace c then lstrip s' else s
  end.

Fixpoint rstrip (s : string) : string :=
  match s with
  | EmptyString => EmptyString
  | String c s' =>
      match rstrip s' with
      | EmptyString => if isspace c then EmptyString else String c EmptyString
      | t => String c t
      end
  end.

(** [str.strip()] *)
Definition strip (s : string) : string := rstrip (lstrip s).

Fixpoint contains_nul (s : string) : bool :=
  match s with
  | EmptyString => false
  | String c s' => (N_of_ascii c =? 0)%N || contains_nul s'
  end.

(** [forms.CharField(max_length=n).clean] for a required field: the value
    is stripped, must not be empty, must not be longer than [n] and must
    not contain a null character.  [None] stands for [ValidationError]. *)
Definition CharField_clean (max_length : nat) (raw : string) : option string :=
  let value := strip raw in
  if String.eqb value "" then None
  else if (String.length value <=? max_length)%nat && negb (contains_nul value)
  then Some value
  else None.

Module BookForm.
(** The submitted fields, decoded: [author] is the selected key if any,
    [genre] the selected keys. *)
Record data := {
  title : string;
  author : option Z;
  summary : string;
  isbn : string;
  genre : list Z
}.

(** [ModelChoiceField.clean]; [Book.author] has [blank=False], so a
    selection is required. *)
Definition clean_author (db : Catalog) (a : option Z) : option Z :=
  match a with
  | None => None
  | Some k =>
      if existsb (fun r => Author.id r =? k) (Author_objects db)
      then Some k else None
  end.

(** [ModelMultipleChoiceField.clean]: required, every key must exist; the
    cleaned value is the set of selected genres. *)
Definition clean_genre (db : Catalog) (g : list Z) : option (list Z) :=
  match g with
  | [] => None
  | _ =>
      if forallb (fun k => existsb (fun r => Genre.id r =? k)
                             (Genre_objects db)) g
      then Some (map Genre.id
                   (filter (fun r => existsb (Z.eqb (Genre.id r)) g)
                      (Genre_objects db)))
      else None
  end.

(** [validate_unique] for [isbn]: another row with this value, the
    instance being edited excluded. *)
Definition isbn_taken (instance : option Book.t) (value : string)
    (db : Catalog) : bool :=
  existsb
    (fun b =>
       String.eqb (Book.isbn b) value &&
       match instance with
       | Some self => negb (Book.id b =? Book.id self)
       | None => true
       end)
    (Book_objects db).

(** [form.is_valid()] and [form.cleaned_data]. *)
Definition clean (instance : option Book.t) (d : data) (db : Catalog)
  : option data :=
  match CharField_clean 200 (title d), clean_author db (author d),
        CharField_clean 1000 (summary d),
        CharField_clean Book.isbn_max_length (isbn d),
        clean_genre db (genre d) with
  | Some t, Some a, Some s, Some i, Some g =>
      if isbn_taken instance i db then None
      else Some {| title := t; author := Some a; summary := s;
                   isbn := i; genre := g |}
  | _, _, _, _, _ => None
  end.

(** [form.save()]: the row is inserted, or updated when the form edits an
    instance; then the many-to-many rows are set. *)
Definition save (instance : option Book.t) (cleaned : data) (db : Catalog)
  : Book.t * Catalog :=
  let key :=
    match instance with
    | Some self => Book.id self
    | None => next_pk Book.id (Book_objects db)
    end in
  let object :=
    {| Book.id := key; Book.title := title cleaned;
       Book.author := author cleaned; Book.summary := summary cleaned;
       Book.isbn := isbn cleaned |} in
  (object,
   {| Genre_objects := Genre_objects db;
      Author_objects := Author_objects db;
      Book_objects :=
        match instance with
        | Some _ => save Book.id object (Book_objects db)
        | None => Book_objects db ++ [object]
        end;
      Book_genre :=
        filter (fun row : Z * Z => negb (fst row =? key)) (Book_genre db)
        ++ map (fun g => (key, g)) (genre cleaned);
      BookInstance_objects := BookInstance_objects db |}).
End BookForm.

Module BookCreate.
Definition permission_required : string := "user.is_staff".

(** A POST request: the permission check of the mixin, then
    [CreateView.post].  The redirect goes to [get_absolute_url()] of the
    saved object. *)
Definition post `{URLconf} : View BookForm.data BookForm.data :=
  PermissionRequiredMixin permission_required
    (fun request db =>
       match BookForm.clean None (POST request) db with
       | Some cleaned =>
           let (object, db') := BookForm.save None cleaned db in
           match Book.get_absolute_url object with
           | Some url => (HttpResponseRedirect url, db')
           | None => (HttpResponseServerError NoReverseMatch, db')
           end
       | None => (render "catalog/book_form.html" (POST request), db)
       end).
End BookCreate.

(** ** Reachable catalogs

    The writes to the [Book] table: a valid [ModelForm] saved for a new or
    an existing book ([BookCreate], and the add and change pages of the
    admin), [Book.delete()], and [Author.delete()] through [SET_NULL].
    Every other operation leaves the table as it is, whatever it writes
    elsewhere. *)
Unset Implicit Arguments.

Inductive reachable : Catalog -> Prop :=
| reach_empty : reachable empty_catalog
| reach_create db d cleaned :
    reachable db ->
    BookForm.clean None d db = Some cleaned ->
    reachable (snd (BookForm.save None cleaned db))
| reach_update db key self d cleaned :
    reachable db ->
    get Book.id key (Book_objects db) = Found self ->
    BookForm.clean (Some self) d db = Some cleaned ->
    reachable (snd (BookForm.save (Some self) cleaned db))
| reach_Book_delete db self db' :
    reachable db ->
    Book_delete self db = inr db' ->
    reachable db'
| reach_Author_delete db self db' :
    reachable db ->
    Author_delete self db = inr db' ->
    reachable db'
| reach_other db db' :
    reachable db ->
    Book_objects db' = Book_objects db ->
    reachable db'.

(** The constraints declared on [Book]: the primary key, [unique=True] and
    [max_length=13] on [isbn]. *)
Definition Book_constraints (db : Catalog) : Prop :=
  NoDup (map Book.id (Book_objects db)) /\
  NoDup (map Book.isbn (Book_objects db)) /\
  Forall (fun b => (String.length (Book.isbn b) <= Book.isbn_max_length)%nat)
         (Book_objects db).

(** ** Vocabulary of the statements *)

(** The relation decided by a boolean comparison. *)
Definition holds {A} (leb : A -> A -> bool) : A -> A -> Prop :=
  fun a b => leb a b = true.

(** Ascending due dates; rows without a due date come first or last as the
    backend has it. *)
Definition due_back_le `{Backend} (a b : BookInstance.t) : Prop :=
  match BookInstance.due_back a, BookInstance.due_back b with
  | Some x, Some y => x <= y
  | None, Some _ => nulls_first = true
  | Some _, None => nulls_first = false
  | None, None => True
  end.

Definition text_le `{Backend} (s t : string) : Prop := collate s t = true.
Definition text_lt `{Backend} (s t : string) : Prop := collate t s = false.

(** Last name, then first name. *)
Definition Author_le `{Backend} (a b : Author.t) : Prop :=
  text_lt (Author.last_name a) (Author.last_name b) \/
  (text_le (Author.last_name a) (Author.last_name b) /\
   text_le (Author.last_name b) (Author.last_name a) /\
   text_le (Author.first_name a) (Author.first_name b)).

Definition Genre_le `{Backend} (a b : Genre.t) : Prop :=
  text_le (Genre.name a) (Genre.name b).

(** Two rows of [BookInstance] that differ at most in [due_back], and not
    at all unless their key is [pk]. *)
Definition same_but_due_back (pk : Z) (r r' : BookInstance.t) : Prop :=
  BookInstance.id r' = BookInstance.id r /\
  BookInstance.book r' = BookInstance.book r /\
  BookInstance.imprint r' = BookInstance.imprint r /\
  BookInstance.borrower r' = BookInstance.borrower r /\
  BookInstance.status r' = BookInstance.status r /\
  BookInstance.language r' = BookInstance.language r /\
  (BookInstance.id r <> pk -> r' = r).

(** A row of [Book] after its author was deleted: only [author] changes,
    and only where it pointed to the deleted author. *)
Definition author_set_null (key : Z) (b b' : Book.t) : Prop :=
  Book.id b' = Book.id b /\
  Book.title b' = Book.title b /\
  Book.summary b' = Book.summary b /\
  Book.isbn b' = Book.isbn b /\
  Book.author b' =
    (if references (Book.author b) key then None else Book.author b).

Definition on_loan (i : BookInstance.t) : bool :=
  String.eqb (BookInstance.status i) "o".

Definition borrowed_by (u : User.t) (i : BookInstance.t) : bool :=
  references (BookInstance.borrower i) (User.id u).

(** [page] is page [number] of [queryset] cut in pages of [per_page]: it
    holds the items at the positions of that page, [per_page] of them
    unless it is the last page. *)
Definition page_of {R} (per_page : nat) (queryset : list R) (number : nat)
    (page : list R) : Prop :=
  (List.length page <= per_page)%nat /\
  ((number < num_pages per_page (List.length queryset))%nat ->
   List.length page = per_page) /\
  (forall i, (i < per_page)%nat ->
     nth_error page i = nth_error queryset ((number - 1) * per_page + i)).

(** The conditions under which the renewal view writes. *)
Definition renewal_accepted `{Forms} (today : date)
    (request : HttpRequest QueryDict) : Prop :=
  is_authenticated (user request) = true /\
  has_perm (user request) "catalog.can_mark_returned" = true /\
  method request = "POST" /\
  exists d, RenewBookForm_clean today (POST request) = Some d.

(** ** A concrete site *)

Definition is_digit (c : ascii) : bool :=
  ((48 <=? N_of_ascii c) && (N_of_ascii c <=? 57))%N.

Fixpoint all_digits (s : string) : bool :=
  match s with
  | EmptyString => true
  | String c s' => is_digit c && all_digits s'
  end.

Fixpoint parse_digits (s : string) (acc : Z) : Z :=
  match s with
  | EmptyString => acc
  | String c s' => parse_digits s' (10 * acc + (Z.of_N (N_of_ascii c) - 48))
  end.

(** Routes in which the detail pages take an integer key. *)
Definition example_urls : URLconf :=
  {| reverse := fun name args =>
       match args with
       | [] =>
           if String.eqb name "books" then Some "/catalog/books/"
           else if String.eqb name "authors" then Some "/catalog/authors/"
           else if String.eqb name "borrowed-books"
                then Some "/catalog/borrowed/"
           else None
       | [a] =>
           if all_digits a && negb (String.eqb a "") then
             if String.eqb name "book-detail"
             then Some (String.append "/catalog/book/" a)
             else if String.eqb name "author-detail"
                  then Some (String.append "/catalog/author/" a)
             else None
           else None
       | _ => None
       end |}.

Fixpoint QueryDict_get (key : string) (q : QueryDict) : option string :=
  match q with
  | [] => None
  | (k, v) :: q' => if String.eqb k key then Some v else QueryDict_get key q'
  end.

(** A renewal form whose field holds the ordinal of the date and accepts
    the dates from today to four weeks ahead. *)
Definition example_forms : Forms :=
  {| RenewBookForm_clean := fun today data =>
       match QueryDict_get "renewal_date" data with
       | Some v =>
           if all_digits v && negb (String.eqb v "") then
             let d := parse_digits v 0 in
             if (today <=? d) && (d <=? today + 28) then Some (Some d)
             else None
           else None
       | None => None
       end |}.

Definition librarian : User.t :=
  {| User.id := 2; User.is_active := true; User.is_staff := true;
     User.is_superuser := false;
     User.permissions := ["catalog.can_mark_returned"] |}.

Definition reader : User.t :=
  {| User.id := 3; User.is_active := true; User.is_staff := false;
     User.is_superuser := false; User.permissions := [] |}.

Definition superuser : User.t :=
  {| User.id := 1; User.is_active := true; User.is_staff := true;
     User.is_superuser := true; User.permissions := [] |}.

Definition example_today : date := 739000.

Definition copy (key : Z) (due : option date) (who : option Z) (st : string)
  : BookInstance.t :=
  {| BookInstance.id := key; BookInstance.book := Some 1;
     BookInstance.imprint := "Penguin, 2003"; BookInstance.due_back := due;
     BookInstance.borrower := who; BookInstance.status := st;
     BookInstance.language := "en" |}.

Definition example_catalog : Catalog :=
  {| Genre_objects := [ {| Genre.id := 1; Genre.name := "Novel" |} ];
     Author_objects :=
       [ {| Author.id := 1; Author.first_name := "Jane";
            Author.last_name := "Austen"; Author.date_of_birth := None;
            Author.date_of_death := None |} ];
     Book_objects :=
       [ {| Book.id := 1; Book.title := "Emma"; Book.author := Some 1;
            Book.summary := "A novel"; Book.isbn := "9780141439587" |} ];
     Book_genre := [(1, 1)];
     BookInstance_objects :=
       [ copy 7 (Some 739010) (Some 3) "o"; copy 8 None None "a";
         copy 9 (Some 738990) (Some 3) "o"; copy 10 None (Some 2) "o" ] |}.

Definition get_request (u : request_user) : HttpRequest QueryDict :=
  {| method := "GET"; user := u; POST := [] |}.

Definition post_request (u : request_user) (data : QueryDict)
  : HttpRequest QueryDict :=
  {| method := "POST"; user := u; POST := data |}.

(** A catalog with an author and a genre and no book yet, and the form of a
    book whose isbn has three characters. *)
Definition catalog_without_books : Catalog :=
  {| Genre_objects := Genre_objects example_catalog;
     Author_objects := Author_objects example_catalog;
     Book_objects := []; Book_genre := []; BookInstance_objects := [] |}.

Definition short_isbn_form : BookForm.data :=
  {| BookForm.title := "Emma"; BookForm.author := Some 1;
     BookForm.summary := "A novel"; BookForm.isbn := "123";
     BookForm.genre := [1] |}.

Definition short_isbn_catalog : Catalog :=
  snd (BookForm.save None short_isbn_form catalog_without_books).

(** The invariant as C8 words it: every isbn has 13 characters, and no two
    books share one. *)
Definition isbn_13_and_unique (db : Catalog) : Prop :=
  Forall (fun b => String.length (Book.isbn b) = 13%nat) (Book_objects db) /\
  NoDup (map Book.isbn (Book_objects db)).

(** ** The rest of [catalog/models.py] *)

(** [sep.join(l)] *)
Fixpoint join (sep : string) (l : list string) : string :=
  match l with
  | [] => EmptyString
  | [x] => x
  | x :: l' => String.append x (String.append sep (join sep l'))
  end.



(** What the methods of a model can raise. *)
Inductive model_error :=
| AttributeError              (* an attribute of [None] *)
| RelatedObjectDoesNotExist   (* the row a foreign key names is missing *)
| RelatedObjectNotUnique
| NoReverseMatchError.

(** [self.book]: [None] for a null key, otherwise the row of that key. *)
Definition BookInstance_book (self : BookInstance.t) (db : Catalog)
  : model_error + option Book.t :=
  match BookInstance.book self with
  | None => inr None
  | Some key =>
      match get Book.id key (Book_objects db) with
      | Found b => inr (Some b)
      | DoesNotExist => inl RelatedObjectDoesNotExist
      | MultipleObjectsReturned => inl RelatedObjectNotUnique
      end
  end.

(** [reverse('book-detail', args=[str(self.book.id)])] *)
Definition BookInstance_get_absolute_url `{URLconf} (self : BookInstance.t)
    (db : Catalog) : model_error + string :=
  match BookInstance_book self db with
  | inl e => inl e
  | inr None => inl AttributeError
  | inr (Some b) =>
      match reverse "book-detail" [str_Z (Book.id b)] with
      | Some url => inr url
      | None => inl NoReverseMatchError
      end
  end.

Definition hex_digit (n : Z) : ascii :=
  if n <? 10 then ascii_of_N (48 + Z.to_N n) else ascii_of_N (87 + Z.to_N n).

(** ['%0*x' % (digits, n)] for [0 <= n < 16 ^ digits] *)
Fixpoint hex_fixed (digits : nat) (n : Z) (acc : string) : string :=
  match digits with
  | O => acc
  | S k => hex_fixed k (n / 16) (String (hex_digit (n mod 16)) acc)
  end.

(** [str(uuid)]: 32 hexadecimal digits in groups of 8, 4, 4, 4 and 12. *)
Definition UUID_str (u : Z) : string :=
  let h := hex_fixed 32 u EmptyString in
  join "-" [substring 0 8 h; substring 8 4 h; substring 12 4 h;
            substring 16 4 h; substring 20 12 h].

(** [f'{self.id} ({self.book.title})'] *)
Definition BookInstance_str (self : BookInstance.t) (db : Catalog)
  : model_error + string :=
  match BookInstance_book self db with
  | inl e => inl e
  | inr None => inl AttributeError
  | inr (Some b) =>
      inr (String.append (UUID_str (BookInstance.id self))
             (String.append " (" (String.append (Book.title b) ")")))
  end.

(** [f'{self.last_name}, {self.first_name}'] *)
Definition Author_str (self : Author.t) : string :=
  String.append (Author.last_name self)
    (String.append ", " (Author.first_name self)).

(** ** The rest of [catalog/views.py] *)

(** The integer entries of [request.session]. *)
Definition Session := list (string * Z).

(** [session.get(key, default)] *)
Fixpoint session_get (key : string) (default : Z) (s : Session) : Z :=
  match s with
  | [] => default
  | (k, v) :: s' => if String.eqb k key then v else session_get key default s'
  end.

(** [session[key] = value] *)
Fixpoint session_set (key : string) (value : Z) (s : Session) : Session :=
  match s with
  | [] => [(key, value)]
  | (k, v) :: s' =>
      if String.eqb k key then (key, value) :: s'
      else (k, v) :: session_set key value s'
  end.

Record index_context := {
  num_books : nat;
  num_instances : nat;
  num_instances_available : nat;
  num_authors : nat;
  num_genres : nat;
  num_visits : Z
}.

(** The home page.  It reads the catalog and writes the session. *)
Definition index (session : Session) (db : Catalog)
  : HttpResponse index_context * Session :=
  let visits := session_get "num_visits" 0 session in
  (render "index.html"
     {| num_books := List.length (Book_objects db);
        num_instances := List.length (BookInstance_objects db);
        num_instances_available :=
          List.length
            (filter (fun i => String.eqb (BookInstance.status i) "a")
               (BookInstance_objects db));
        num_authors := List.length (Author_objects db);
        num_genres := List.length (Genre_objects db);
        num_visits := visits |},
   session_set "num_visits" (visits + 1) session).

(** [n] requests of the home page in one session; the responses come in
    the order of the requests. *)
Fixpoint index_times (n : nat) (session : Session) (db : Catalog)
  : list (HttpResponse index_context) * Session :=
  match n with
  | O => ([], session)
  | S k =>
      let (response, session') := index session db in
      let (responses, session'') := index_times k session' db in
      (response :: responses, session'')
  end.

(** [DetailView.get] *)
Module BookDetailView.
Definition get (pk : Z) (db : Catalog) : HttpResponse Book.t :=
  fst (with_object_or_404 (get Book.id pk (Book_objects db))
         (fun object => (render "catalog/book_detail.html" object, tt)) tt).
End BookDetailView.

Module AuthorDetailView.
Definition get (pk : Z) (db : Catalog) : HttpResponse Author.t :=
  fst (with_object_or_404 (get Author.id pk (Author_objects db))
         (fun object => (render "catalog/author_detail.html" object, tt)) tt).
End AuthorDetailView.

(** A submitted date field, decoded: left empty, not a date in any of the
    accepted formats, or a date. *)
Inductive date_input :=
| date_empty
| date_invalid
| date_value (d : date).

(** [forms.DateField(required=False).clean] *)
Definition DateField_clean (x : date_input) : option (option date) :=
  match x with
  | date_empty => Some None
  | date_invalid => None
  | date_value d => Some (Some d)
  end.

Definition set_Author_objects (l : list Author.t) (db : Catalog) : Catalog :=
  {| Genre_objects := Genre_objects db; Author_objects := l;
     Book_objects := Book_objects db; Book_genre := Book_genre db;
     BookInstance_objects := BookInstance_objects db |}.

Definition set_Genre_objects (l : list Genre.t) (db : Catalog) : Catalog :=
  {| Genre_objects := l; Author_objects := Author_objects db;
     Book_objects := Book_objects db; Book_genre := Book_genre db;
     BookInstance_objects := BookInstance_objects db |}.

(** The [ModelForm] of [Author] over [first_name], [last_name],
    [date_of_birth] and [date_of_death]: the fields [AuthorCreate] lists,
    and all the editable fields, which is what ['__all__'] gives
    [AuthorUpdate]. *)
Module AuthorForm.
Record data := {
  first_name : string;
  last_name : string;
  date_of_birth : date_input;
  date_of_death : date_input
}.

(** [form.is_valid()] and the instance the form builds, with key [key]. *)
Definition construct (key : Z) (d : data) : option Author.t :=
  match CharField_clean 100 (first_name d), CharField_clean 100 (last_name d),
        DateField_clean (date_of_birth d), DateField_clean (date_of_death d)
  with
  | Some f, Some l, Some b, Some e =>
      Some {| Author.id := key; Author.first_name := f;
              Author.last_name := l; Author.date_of_birth := b;
              Author.date_of_death := e |}
  | _, _, _, _ => None
  end.
End AuthorForm.

Module AuthorCreate.
Definition permission_required : string := "user.is_staff".

(** A POST request: the object is saved, then the redirect goes to its
    [get_absolute_url()]. *)
Definition post `{URLconf} : View AuthorForm.data AuthorForm.data :=
  PermissionRequiredMixin permission_required
    (fun request db =>
       match AuthorForm.construct (next_pk Author.id (Author_objects db))
               (POST request) with
       | Some object =>
           let db' := set_Author_objects (Author_objects db ++ [object]) db in
           match Author.get_absolute_url object with
           | Some url => (HttpResponseRedirect url, db')
           | None => (HttpResponseServerError NoReverseMatch, db')
           end
       | None => (render "catalog/author_form.html" (POST request), db)
       end).
End AuthorCreate.

Module AuthorUpdate.
Definition permission_required : string := "user.is_staff".

(** A POST request: [UpdateView.post] gets the object first. *)
Definition post `{URLconf} (pk : Z) : View AuthorForm.data AuthorForm.data :=
  PermissionRequiredMixin permission_required
    (fun request db =>
       with_object_or_404 (get Author.id pk (Author_objects db))
         (fun object =>
            match AuthorForm.construct (Author.id object) (POST request) with
            | Some object' =>
                let db' :=
                  set_Author_objects
                    (save Author.id object' (Author_objects db)) db in
                match Author.get_absolute_url object' with
                | Some url => (HttpResponseRedirect url, db')
                | None => (HttpResponseServerError NoReverseMatch, db')
                end
            | None => (render "catalog/author_form.html" (POST request), db)
            end)
         db).
End AuthorUpdate.

Module GenreCreate.
Definition permission_required : string := "user.is_staff".

(** The form has the one field [name]. *)
Definition post `{URLconf} : View string string :=
  PermissionRequiredMixin permission_required
    (fun request db =>
       match CharField_clean 200 (POST request) with
       | Some name =>
           let object :=
             {| Genre.id := next_pk Genre.id (Genre_objects db);
                Genre.name := name |} in
           let db' := set_Genre_objects (Genre_objects db ++ [object]) db in
           match Genre.get_absolute_url object with
           | Some url => (HttpResponseRedirect url, db')
           | None => (HttpResponseServerError NoReverseMatch, db')
           end
       | None => (render "catalog/genre_form.html" (POST request), db)
       end).
End GenreCreate.

(** The [ModelForm] of [BookInstance] with [fields = '__all__']; [id] is an
    editable field.  [status] is [None] when the field is absent from the
    submitted data; an absent or malformed [id] is [None]. *)
Module BookInstanceForm.
Record data := {
  id : option Z;
  book : option Z;
  imprint : string;
  due_back : date_input;
  borrower : option Z;
  status : option string;
  language : string
}.

Definition is_choice (choices : list (string * string)) (v : string) : bool :=
  existsb (fun c => String.eqb (fst c) v) choices.

(** A UUID has 128 bits; the key must be new. *)
Definition clean_id (db : Catalog) (x : option Z) : option Z :=
  match x with
  | Some u =>
      if (0 <=? u) && (u <? 2 ^ 128)
         && negb (existsb (fun r => BookInstance.id r =? u)
                    (BookInstance_objects db))
      then Some u else None
  | None => None
  end.

(** [book] has [blank=False]: a selection is required. *)
Definition clean_book (db : Catalog) (x : option Z) : option Z :=
  match x with
  | Some k =>
      if existsb (fun r => Book.id r =? k) (Book_objects db)
      then Some k else None
  | None => None
  end.

(** [borrower] has [blank=True]; a selected user must exist. *)
Definition clean_borrower (users : list User.t) (x : option Z)
  : option (option Z) :=
  match x with
  | Some k =>
      if existsb (fun r => User.id r =? k) users then Some (Some k) else None
  | None => Some None
  end.

(** [status] has [blank=True] and the default ['m'], which the instance
    keeps when the field is absent from the data. *)
Definition clean_status (x : option string) : option string :=
  match x with
  | None => Some "m"
  | Some v =>
      if String.eqb v "" || is_choice BookInstance.LOAN_STATUS v
      then Some v else None
  end.

Definition clean_language (v : string) : option string :=
  if is_choice BookInstance.LANGUAGES v then Some v else None.

Definition construct (users : list User.t) (d : data) (db : Catalog)
  : option BookInstance.t :=
  match clean_id db (id d), clean_book db (book d),
        CharField_clean 200 (imprint d), DateField_clean (due_back d),
        clean_borrower users (borrower d), clean_status (status d),
        clean_language (language d) with
  | Some u, Some b, Some i, Some due, Some who, Some st, Some lang =>
      Some {| BookInstance.id := u; BookInstance.book := Some b;
              BookInstance.imprint := i; BookInstance.due_back := due;
              BookInstance.borrower := who; BookInstance.status := st;
              BookInstance.language := lang |}
  | _, _, _, _, _, _, _ => None
  end.
End BookInstanceForm.

Module BookInstanceCreate.
Definition permission_required : string := "user.is_staff".

(** [users] is the table of [django.contrib.auth], which no view of the
    catalog writes.  The redirect goes to [get_absolute_url()] of the saved
    object, whose [book] is the row the form selected (a valid form has
    one), so the URL is built from the selected key. *)
Definition post `{URLconf} (users : list User.t)
  : View BookInstanceForm.data BookInstanceForm.data :=
  PermissionRequiredMixin permission_required
    (fun request db =>
       match BookInstanceForm.construct users (POST request) db with
       | Some object =>
           let db' :=
             set_BookInstance_objects (BookInstance_objects db ++ [object])
               db in
           match reverse "book-detail"
                   [str_Z (match BookInstance.book object with
                           | Some key => key
                           | None => 0
                           end)] with
           | Some url => (HttpResponseRedirect url, db')
           | None => (HttpResponseServerError NoReverseMatch, db')
           end
       | None =>
           (render "catalog/bookinstance_form.html" (POST request), db)
       end).
End BookInstanceCreate.

(** ** Catalogs the site can produce

    From the empty catalog, by POST requests to the views of
    [catalog/views.py], and by the change and delete pages that [admin.py]
    gives [Book], which save the [ModelForm] of an existing book and call
    [Book.delete()]. *)
Inductive served `{URLconf} `{Forms} : Catalog -> Prop :=
| served_empty : served empty_catalog
| served_renew today pk request db :
    served db -> served (snd (renew_book_librarian today pk request db))
| served_AuthorCreate request db :
    served db -> served (snd (AuthorCreate.post request db))
| served_AuthorUpdate pk request db :
    served db -> served (snd (AuthorUpdate.post pk request db))
| served_AuthorDelete pk request db :
    served db -> served (snd (AuthorDelete.post pk request db))
| served_BookCreate request db :
    served db -> served (snd (BookCreate.post request db))
| served_BookInstanceCreate users request db :
    served db -> served (snd (BookInstanceCreate.post users request db))
| served_GenreCreate request db :
    served db -> served (snd (GenreCreate.post request db))
| served_Book_change db key self d cleaned :
    served db ->
    get Book.id key (Book_objects db) = Found self ->
    BookForm.clean (Some self) d db = Some cleaned ->
    served (snd (BookForm.save (Some self) cleaned db))
| served_Book_delete db self db' :
    served db -> Book_delete self db = inr db' -> served db'.

(** Keys are unique in every table and every foreign key names a row; a
    book instance always has a book. *)
Record integrity (db : Catalog) : Prop := {
  Genre_keys : NoDup (map Genre.id (Genre_objects db));
  Author_keys : NoDup (map Author.id (Author_objects db));
  Book_keys : NoDup (map Book.id (Book_objects db));
  BookInstance_keys : NoDup (map BookInstance.id (BookInstance_objects db));
  Book_author_exists :
    forall b a, In b (Book_objects db) -> Book.author b = Some a ->
                In a (map Author.id (Author_objects db));
  BookInstance_book_exists :
    forall i, In i (BookInstance_objects db) ->
              exists key, BookInstance.book i = Some key /\
                          In key (map Book.id (Book_objects db));
  Book_genre_exists :
    forall row, In row (Book_genre db) ->
                In (fst row) (map Book.id (Book_objects db)) /\
                In (snd row) (map Genre.id (Genre_objects db))
}.

(** A POST request of [u] with the data [data]. *)
Definition post_of {D} (u : request_user) (data : D) : HttpRequest D :=
  {| method := "POST"; user := u; POST := data |}.


(** No white space at the start. *)
Definition starts_clean (s : string) : Prop :=
  match s with
  | EmptyString => True
  | String c _ => isspace c = false
  end.

(** A text column as a required form field of [n] characters leaves it. *)
Definition clean_text (n : nat) (v : string) : Prop :=
  v <> "" /\ (String.length v <= n)%nat /\ strip v = v.

(** What the forms let into the columns. *)
Record well_formed (db : Catalog) : Prop := {
  Genre_name_clean :
    forall g, In g (Genre_objects db) -> clean_text 200 (Genre.name g);
  Author_names_clean :
    forall a, In a (Author_objects db) ->
              clean_text 100 (Author.first_name a) /\
              clean_text 100 (Author.last_name a);
  Book_texts_clean :
    forall b, In b (Book_objects db) ->
              clean_text 200 (Book.title b) /\
              clean_text 1000 (Book.summary b) /\
              clean_text 13 (Book.isbn b);
  BookInstance_fields_clean :
    forall i, In i (BookInstance_objects db) ->
              clean_text 200 (BookInstance.imprint i) /\
              (BookInstance.status i = "" \/
               In (BookInstance.status i) ["m"; "o"; "a"; "r"]) /\
              In (BookInstance.language i) ["en"; "ru"; "de"; "fr"] /\
              0 <= BookInstance.id i < 2 ^ 128
}.

(** A catalog built through the views by the superuser: a genre, an
    author, a book and a copy on loan to the reader. *)
Definition stocked_1 : Catalog :=
  snd (@GenreCreate.post example_urls
         (post_of (LoggedIn superuser) " Novel ") empty_catalog).

Definition stocked_2 : Catalog :=
  snd (@AuthorCreate.post example_urls
         (post_of (LoggedIn superuser)
            {| AuthorForm.first_name := "Jane";
               AuthorForm.last_name := "Austen";
               AuthorForm.date_of_birth := date_value 647000;
               AuthorForm.date_of_death := date_empty |}) stocked_1).

Definition stocked_3 : Catalog :=
  snd (@BookCreate.post example_urls
         (post_of (LoggedIn superuser)
            {| BookForm.title := "Emma"; BookForm.author := Some 1;
               BookForm.summary := "A novel";
               BookForm.isbn := "9780141439587"; BookForm.genre := [1] |})
         stocked_2).

Definition stocked_catalog : Catalog :=
  snd (@BookInstanceCreate.post example_urls [reader]
         (post_of (LoggedIn superuser)
            {| BookInstanceForm.id := Some 7; BookInstanceForm.book := Some 1;
               BookInstanceForm.imprint := "Penguin, 2003";
               BookInstanceForm.due_back := date_value 739010;
               BookInstanceForm.borrower := Some 3;
               BookInstanceForm.status := Some "o";
               BookInstanceForm.language := "en" |}) stocked_3).

Definition author_form : AuthorForm.data :=
  {| AuthorForm.first_name := "Ivan"; AuthorForm.last_name := "Ivanov";
     AuthorForm.date_of_birth := date_invalid;
     AuthorForm.date_of_death := date_empty |}.

(** * Properties *)

(** ** Sorting *)

Section OrderingFacts.
Context {R : Type}.
Variable leb : R -> R -> bool.

Lemma insert_row_perm x l : Permutation (insert_row leb x l) (x :: l).
Proof.
  induction l as [|y l IH]; simpl.
  - apply Permutation_refl.
  - destruct (leb x y).
    + apply Permutation_refl.
    + eapply perm_trans; [apply perm_skip, IH | apply perm_swap].
Qed.

Lemma order_by_perm l : Permutation (order_by leb l) l.
Proof.
  induction l as [|x l IH]; simpl.
  - constructor.
  - eapply perm_trans; [apply insert_row_perm | apply perm_skip, IH].
Qed.

Lemma order_by_In x l : In x (order_by leb l) <-> In x l.
Proof.
  split; apply Permutation_in;
    [apply order_by_perm | apply Permutation_sym, order_by_perm].
Qed.

Hypothesis leb_total : total leb.

Lemma insert_row_HdRel a x l :
  holds leb a x -> HdRel (holds leb) a l ->
  HdRel (holds leb) a (insert_row leb x l).
Proof.
  intros Hax Hal. destruct l as [|y l]; simpl.
  - constructor. exact Hax.
  - destruct (leb x y); constructor.
    + exact Hax.
    + inversion Hal; assumption.
Qed.

Lemma insert_row_sorted x l :
  Sorted (holds leb) l -> Sorted (holds leb) (insert_row leb x l).
Proof.
  induction 1 as [|y l Hs IH Hhd]; simpl.
  - repeat constructor.
  - destruct (leb x y) eqn:E.
    + constructor; [constructor; assumption | constructor; exact E].
    + constructor; [exact IH |].
      apply insert_row_HdRel; [| exact Hhd].
      destruct (leb_total x y) as [H | H]; [congruence | exact H].
Qed.

Lemma order_by_sorted l : Sorted (holds leb) (order_by leb l).
Proof.
  induction l as [|x l IH]; simpl.
  - constructor.
  - apply insert_row_sorted, IH.
Qed.

Hypothesis leb_trans : transitive leb.

Lemma order_by_strongly_sorted l :
  StronglySorted (holds leb) (order_by leb l).
Proof.
  apply Sorted_StronglySorted; [| apply order_by_sorted].
  intros x y z. apply leb_trans.
Qed.

End OrderingFacts.

Lemma StronglySorted_weaken {A} (P Q : A -> A -> Prop) l :
  (forall a b, P a b -> Q a b) -> StronglySorted P l -> StronglySorted Q l.
Proof.
  intros HPQ. induction 1 as [|a l Hs IH Hall]; constructor.
  - exact IH.
  - eapply Forall_impl; [| exact Hall]. intros b. apply HPQ.
Qed.

Section OrderingLaws.
Context {R K : Type}.

Lemma on_key_total (leb : K -> K -> bool) (key : R -> K) :
  total leb -> total (on_key leb key).
Proof. intros H x y. apply H. Qed.

Lemma on_key_trans (leb : K -> K -> bool) (key : R -> K) :
  transitive leb -> transitive (on_key leb key).
Proof. intros H x y z. apply H. Qed.

Lemma nullable_total nf (leb : K -> K -> bool) :
  total leb -> total (nullable nf leb).
Proof.
  intros H [x|] [y|]; simpl; auto.
  - destruct nf; auto.
  - destruct nf; auto.
Qed.

Lemma nullable_trans nf (leb : K -> K -> bool) :
  transitive leb -> transitive (nullable nf leb).
Proof.
  intros H [x|] [y|] [z|]; simpl; try (destruct nf; simpl; congruence).
  apply H.
Qed.

Lemma then_by_total (c1 c2 : R -> R -> bool) :
  total c1 -> total c2 -> total (then_by c1 c2).
Proof.
  intros H1 H2 x y. unfold then_by.
  destruct (H1 x y) as [E | E]; rewrite E; simpl;
    destruct (c1 y x) eqn:E'; simpl; auto;
    destruct (c1 x y) eqn:E''; simpl; auto; try discriminate.
Qed.

Lemma then_by_trans (c1 c2 : R -> R -> bool) :
  total c1 -> transitive c1 -> transitive c2 -> transitive (then_by c1 c2).
Proof.
  intros T1 H1 H2 x y z. unfold then_by. intros Hxy Hyz.
  destruct (c1 z x) eqn:Ezx; simpl; [| reflexivity].
  destruct (c1 y x) eqn:Eyx; simpl in Hxy.
  - apply andb_true_iff in Hxy. destruct Hxy as [Exy Cxy].
    destruct (c1 z y) eqn:Ezy; simpl in Hyz.
    + apply andb_true_iff in Hyz. destruct Hyz as [Eyz Cyz].
      rewrite (H1 _ _ _ Exy Eyz). simpl. exact (H2 _ _ _ Cxy Cyz).
    + rewrite (H1 _ _ _ Ezx Exy) in Ezy. discriminate.
  - destruct (T1 x y) as [Exy | E]; [| congruence].
    destruct (c1 z y) eqn:Ezy; simpl in Hyz.
    + apply andb_true_iff in Hyz. destruct Hyz as [Eyz _].
      rewrite (H1 _ _ _ Eyz Ezx) in Eyx. discriminate.
    + rewrite (H1 _ _ _ Ezx Exy) in Ezy. discriminate.
Qed.

End OrderingLaws.

Lemma Zleb_total : total Z.leb.
Proof. intros x y. rewrite !Z.leb_le. lia. Qed.

Lemma Zleb_trans : transitive Z.leb.
Proof. intros x y z. rewrite !Z.leb_le. lia. Qed.

(** ** Models *)

(** C1. [is_overdue] is true exactly when [due_back] is set and strictly
    before the current date; it is false when [due_back] is null. *)
Theorem is_overdue_iff (today : date) (self : BookInstance.t) :
  (BookInstance.is_overdue today self = true <->
   exists d, BookInstance.due_back self = Some d /\ d < today) /\
  (BookInstance.due_back self = None ->
   BookInstance.is_overdue today self = false).
Proof.
  unfold BookInstance.is_overdue, datetime.gt.
  destruct (BookInstance.due_back self) as [d|]; split.
  - rewrite Z.ltb_lt. split.
    + intros H. exists d. split; [reflexivity | exact H].
    + intros [d' [E H]]. injection E as ->. exact H.
  - discriminate.
  - split; [discriminate | intros [d [E _]]; discriminate].
  - reflexivity.
Qed.

(** C10. [Book.get_absolute_url] does not depend on the book: it reverses
    ['book-detail'] with the string of the builtin [id], so any two books
    get the same result. *)
Theorem Book_get_absolute_url_constant `{URLconf} (b1 b2 : Book.t) :
  Book.get_absolute_url b1 = Book.get_absolute_url b2 /\
  Book.get_absolute_url b1 = reverse "book-detail" ["<built-in function id>"].
Proof. split; reflexivity. Qed.

(** ** List views *)

Lemma due_back_ordering_le `{Backend} (a b : BookInstance.t) :
  holds (on_key (nullable nulls_first Z.leb) BookInstance.due_back) a b ->
  due_back_le a b.
Proof.
  unfold holds, on_key, due_back_le, nullable.
  destruct (BookInstance.due_back a), (BookInstance.due_back b); intros E.
  - apply Z.leb_le, E.
  - apply negb_true_iff, E.
  - exact E.
  - exact I.
Qed.

Lemma order_by_due_back_sorted `{Backend} (l : list BookInstance.t) :
  StronglySorted due_back_le (order_by_due_back l).
Proof.
  apply StronglySorted_weaken with (1 := due_back_ordering_le).
  apply order_by_strongly_sorted.
  - apply on_key_total, nullable_total, Zleb_total.
  - apply on_key_trans, nullable_trans, Zleb_trans.
Qed.

Lemma on_loan_status (i : BookInstance.t) :
  on_loan i = true <-> BookInstance.status i = "o".
Proof. apply String.eqb_eq. Qed.

Lemma borrowed_by_borrower (u : User.t) (i : BookInstance.t) :
  borrowed_by u i = true <-> BookInstance.borrower i = Some (User.id u).
Proof.
  unfold borrowed_by, references.
  destruct (BookInstance.borrower i) as [k|].
  - rewrite Z.eqb_eq. split; [intros -> | intros [= ->]]; reflexivity.
  - split; discriminate.
Qed.

(** C4. Both loan lists hold exactly the instances with status ['o'], by
    ascending due date; the list of a user holds only the instances
    borrowed by that user, the list behind the permission holds those of
    every borrower. *)
Theorem loan_lists_on_loan_by_due_back `{Backend} (u : User.t) (db : Catalog) :
  let mine := LoanedBooksByUserListView.get_queryset u db in
  let everyone := BorrowedBooksListView.get_queryset db in
  (forall i, In i mine <->
     In i (BookInstance_objects db) /\ BookInstance.status i = "o" /\
     BookInstance.borrower i = Some (User.id u)) /\
  Permutation mine
    (filter on_loan (filter (borrowed_by u) (BookInstance_objects db))) /\
  StronglySorted due_back_le mine /\
  (forall i, In i everyone <->
     In i (BookInstance_objects db) /\ BookInstance.status i = "o") /\
  Permutation everyone (filter on_loan (BookInstance_objects db)) /\
  StronglySorted due_back_le everyone.
Proof.
  cbv zeta.
  unfold LoanedBooksByUserListView.get_queryset,
    BorrowedBooksListView.get_queryset, order_by_due_back.
  split; [| split; [| split; [| split; [| split]]]].
  - intros i. rewrite order_by_In, !filter_In.
    fold (on_loan i) (borrowed_by u i).
    rewrite on_loan_status, borrowed_by_borrower. tauto.
  - apply order_by_perm.
  - apply order_by_due_back_sorted.
  - intros i. rewrite order_by_In, filter_In. fold (on_loan i).
    rewrite on_loan_status. tauto.
  - apply order_by_perm.
  - apply order_by_due_back_sorted.
Qed.

Lemma Paginator_page_valid {R} (per_page : nat) (l : list R) (number : nat) :
  (0 < per_page)%nat ->
  (1 <= number <= num_pages per_page (List.length l))%nat ->
  exists page,
    Paginator_page per_page l number = Some page /\
    page_of per_page l number page.
Proof.
  intros Hpos [H1 H2]. unfold Paginator_page.
  replace ((1 <=? number)%nat) with true by (symmetry; apply Nat.leb_le, H1).
  replace ((number <=? num_pages per_page (List.length l))%nat) with true
    by (symmetry; apply Nat.leb_le, H2).
  simpl. eexists. split; [reflexivity |].
  unfold page_of. split; [| split].
  - rewrite length_firstn. apply Nat.le_min_l.
  - intros Hlt. rewrite length_firstn, length_skipn.
    unfold num_pages in Hlt.
    pose proof (Nat.Div0.mul_div_le (Nat.max 1 (List.length l) + per_page - 1)
                  per_page) as Hdiv.
    apply Nat.min_l. nia.
  - intros i Hi. rewrite nth_error_firstn.
    replace ((i <? per_page)%nat) with true
      by (symmetry; apply Nat.ltb_lt, Hi).
    apply nth_error_skipn.
Qed.


Lemma ListView_get_page {R} (per_page : nat) (template : string)
    (queryset : list R) (number : nat) :
  (0 < per_page)%nat ->
  (1 <= number <= num_pages per_page (List.length queryset))%nat ->
  exists page,
    ListView_get per_page template queryset number = render template page /\
    page_of per_page queryset number page.
Proof.
  intros Hpos Hn.
  destruct (Paginator_page_valid _ _ _ Hpos Hn) as [page [E Hp]].
  exists page. unfold ListView_get. rewrite E. split; [reflexivity | exact Hp].
Qed.

Lemma Author_ordering_le `{Backend} (a b : Author.t) :
  holds Author.ordering a b -> Author_le a b.
Proof.
  unfold holds, Author.ordering, then_by, on_key, Author_le, text_lt, text_le.
  destruct (collate (Author.last_name b) (Author.last_name a)); simpl.
  - intros E. apply andb_true_iff in E. right. tauto.
  - intros _. left. reflexivity.
Qed.

(** C7. The list views of [Book] and [Author] cut their list in pages of 10
    items, and every list comes in the ordering declared on its model:
    authors by last name then first name, genres by name, book instances by
    due date; [Book] declares none, so books come as the table has
    them. *)
Theorem list_views_pages_and_ordering `{Backend} (db : Catalog) :
  BookListView.paginate_by = 10%nat /\
  AuthorListView.paginate_by = 10%nat /\
  (forall number,
     (1 <= number <= num_pages 10 (List.length (BookListView.get_queryset db)))%nat ->
     exists page,
       BookListView.get number db = render "catalog/book_list.html" page /\
       page_of 10 (BookListView.get_queryset db) number page) /\
  (forall number,
     (1 <= number <= num_pages 10 (List.length (AuthorListView.get_queryset db)))%nat ->
     exists page,
       AuthorListView.get number db = render "catalog/author_list.html" page /\
       page_of 10 (AuthorListView.get_queryset db) number page) /\
  StronglySorted Author_le (AuthorListView.get_queryset db) /\
  Permutation (AuthorListView.get_queryset db) (Author_objects db) /\
  StronglySorted Genre_le (Genre_objects_all db) /\
  Permutation (Genre_objects_all db) (Genre_objects db) /\
  StronglySorted due_back_le (BookInstance_objects_all db) /\
  Permutation (BookInstance_objects_all db) (BookInstance_objects db) /\
  BookListView.get_queryset db = Book_objects db.
Proof.
  split; [reflexivity |]. split; [reflexivity |].
  split; [intros number Hn; apply ListView_get_page; [lia | exact Hn] |].
  split; [intros number Hn; apply ListView_get_page; [lia | exact Hn] |].
  split.
  { apply StronglySorted_weaken with (1 := Author_ordering_le).
    apply order_by_strongly_sorted.
    - apply then_by_total; apply on_key_total, collate_total.
    - apply then_by_trans;
        [apply on_key_total, collate_total | apply on_key_trans, collate_trans ..]. }
  split; [apply order_by_perm |].
  split.
  { apply order_by_strongly_sorted.
    - apply on_key_total, collate_total.
    - apply on_key_trans, collate_trans. }
  split; [apply order_by_perm |].
  split; [apply order_by_due_back_sorted |].
  split; [apply order_by_perm | reflexivity].
Qed.

(** ** The manager *)

Section ManagerFacts.
Context {M : Type} (pk : M -> Z).

Lemma get_Found key table obj :
  get pk key table = Found obj ->
  filter (fun r => pk r =? key) table = [obj].
Proof.
  unfold get.
  destruct (filter (fun r => pk r =? key) table) as [|a [|b l]];
    try discriminate.
  intros [= ->]. reflexivity.
Qed.

Lemma get_Found_In key table obj :
  get pk key table = Found obj -> In obj table /\ pk obj = key.
Proof.
  intros E. apply get_Found in E.
  assert (In obj (filter (fun r => pk r =? key) table)) as Hin
    by (rewrite E; left; reflexivity).
  apply filter_In in Hin. destruct Hin as [Hin Hk].
  split; [exact Hin | apply Z.eqb_eq, Hk].
Qed.

Lemma get_Found_unique key table obj r :
  get pk key table = Found obj -> In r table -> pk r = key -> r = obj.
Proof.
  intros E Hin Hk. apply get_Found in E.
  assert (In r (filter (fun r => pk r =? key) table)) as Hr
    by (apply filter_In; split; [exact Hin | apply Z.eqb_eq, Hk]).
  rewrite E in Hr. destruct Hr as [-> | []]. reflexivity.
Qed.

(** Saving an object that [get] found is an [UPDATE]. *)
Lemma save_Found key table obj obj' :
  get pk key table = Found obj -> pk obj' = key ->
  save pk obj' table = map (fun r => if pk r =? key then obj' else r) table.
Proof.
  intros E Hk. unfold save. rewrite Hk.
  destruct (existsb (fun r => pk r =? key) table) eqn:Ex; [reflexivity |].
  destruct (get_Found_In _ _ _ E) as [Hin Hobj].
  assert (existsb (fun r => pk r =? key) table = true) as Ex'
    by (apply existsb_exists; exists obj; split;
        [exact Hin | apply Z.eqb_eq, Hobj]).
  congruence.
Qed.

End ManagerFacts.

(** ** The renewal view *)

Lemma same_but_due_back_refl pk r : same_but_due_back pk r r.
Proof. unfold same_but_due_back. tauto. Qed.

Lemma Forall2_same {A} (P : A -> A -> Prop) l :
  (forall a, P a a) -> Forall2 P l l.
Proof. intros H. induction l; constructor; auto. Qed.

Lemma Forall2_map_r {A B} (P : A -> B -> Prop) (f : A -> B) l :
  (forall a, In a l -> P a (f a)) -> Forall2 P l (map f l).
Proof.
  induction l as [|a l IH]; intros H; simpl; constructor.
  - apply H. left. reflexivity.
  - apply IH. intros b Hb. apply H. right. exact Hb.
Qed.

(** The decorators answer without running the view they wrap. *)
Lemma decorators_reject {D C} (view : View D C) perm request db :
  (is_authenticated (user request) = false ->
   login_required (permission_required perm true view) request db
   = (redirect_to_login, db)) /\
  (is_authenticated (user request) = true ->
   has_perm (user request) perm = false ->
   login_required (permission_required perm true view) request db
   = (HttpResponseForbidden, db)).
Proof.
  unfold login_required, permission_required.
  split; [intros -> | intros -> ->]; reflexivity.
Qed.

(** C2. The renewal view writes only for an authenticated caller with the
    permission who posts a valid form; in every other case the catalog, and
    so the instance's [due_back], is as before, and a caller who is not
    authenticated or lacks the permission gets the login redirect or the
    403 with nothing written. *)
Theorem renew_unchanged_unless_accepted `{URLconf} `{Forms}
    (today : date) (pk : Z) (request : HttpRequest QueryDict) (db : Catalog) :
  ~ renewal_accepted today request ->
  snd (renew_book_librarian today pk request db) = db /\
  (is_authenticated (user request) = false ->
   renew_book_librarian today pk request db = (redirect_to_login, db)) /\
  (is_authenticated (user request) = true ->
   has_perm (user request) "catalog.can_mark_returned" = false ->
   renew_book_librarian today pk request db = (HttpResponseForbidden, db)).
Proof.
  intros Hno. unfold renew_book_librarian.
  split; [| apply decorators_reject].
  unfold login_required, permission_required.
  destruct (is_authenticated (user request)) eqn:Ea; [| reflexivity].
  destruct (has_perm (user request) "catalog.can_mark_returned") eqn:Ep;
    [| reflexivity].
  unfold renew_book_librarian_body, with_object_or_404.
  destruct (get BookInstance.id pk (BookInstance_objects db));
    try reflexivity.
  destruct (String.eqb (method request) "POST") eqn:Em.
  - destruct (RenewBookForm_clean today (POST request)) as [d|] eqn:Ec;
      [| reflexivity].
    exfalso. apply Hno. unfold renewal_accepted.
    rewrite Ea, Ep, Ec. apply String.eqb_eq in Em. eauto.
  - destruct (datetime.add today (datetime.timedelta_weeks 3));
      reflexivity.
Qed.

Lemma set_due_back_same pk d obj r :
  BookInstance.id obj = pk ->
  (BookInstance.id r = pk -> r = obj) ->
  same_but_due_back pk r
    (if BookInstance.id r =? pk then BookInstance.set_due_back d obj else r).
Proof.
  intros Hobj Huniq. destruct (BookInstance.id r =? pk) eqn:E.
  - apply Z.eqb_eq in E. rewrite (Huniq E).
    unfold same_but_due_back. simpl. repeat split; try reflexivity.
    intros Hne. contradiction.
  - apply same_but_due_back_refl.
Qed.

(** C9. The renewal view changes nothing but [due_back] of the instance
    with the key it was called for: every row keeps its id, book, imprint,
    borrower, status and language, rows with another key are unchanged, and
    so are the other tables.  When it answers with the redirect, the row
    with that key exists and holds the cleaned date. *)
Theorem renew_changes_only_due_back `{URLconf} `{Forms}
    (today : date) (pk : Z) (request : HttpRequest QueryDict) (db : Catalog) :
  let response := fst (renew_book_librarian today pk request db) in
  let db' := snd (renew_book_librarian today pk request db) in
  Forall2 (same_but_due_back pk)
    (BookInstance_objects db) (BookInstance_objects db') /\
  Genre_objects db' = Genre_objects db /\
  Author_objects db' = Author_objects db /\
  Book_objects db' = Book_objects db /\
  Book_genre db' = Book_genre db /\
  (forall url, response = HttpResponseRedirect url ->
     exists d,
       RenewBookForm_clean today (POST request) = Some d /\
       (exists r', In r' (BookInstance_objects db') /\
                   BookInstance.id r' = pk) /\
       (forall r', In r' (BookInstance_objects db') ->
                   BookInstance.id r' = pk -> BookInstance.due_back r' = d)).
Proof.
  cbv zeta.
  assert (Forall2 (same_but_due_back pk)
            (BookInstance_objects db) (BookInstance_objects db)) as Hsame
    by (apply Forall2_same, same_but_due_back_refl).
  unfold renew_book_librarian, login_required, permission_required.
  destruct (is_authenticated (user request));
    [| simpl; repeat split; try exact Hsame; discriminate].
  destruct (has_perm (user request) "catalog.can_mark_returned");
    [| simpl; repeat split; try exact Hsame; discriminate].
  unfold renew_book_librarian_body, with_object_or_404.
  destruct (get BookInstance.id pk (BookInstance_objects db))
    as [obj | |] eqn:Eget;
    try (simpl; repeat split; try exact Hsame; discriminate).
  destruct (String.eqb (method request) "POST").
  2: { destruct (datetime.add today (datetime.timedelta_weeks 3));
       simpl; repeat split; try exact Hsame; discriminate. }
  destruct (RenewBookForm_clean today (POST request)) as [d|];
    [| simpl; repeat split; try exact Hsame; discriminate].
  destruct (get_Found_In _ _ _ _ Eget) as [Hin Hobj].
  assert (BookInstance_objects
            (BookInstance_save (BookInstance.set_due_back d obj) db)
          = map (fun r => if BookInstance.id r =? pk
                          then BookInstance.set_due_back d obj else r)
              (BookInstance_objects db)) as Hsave
    by (apply (save_Found _ _ _ obj); [exact Eget | exact Hobj]).
  assert (Forall2 (same_but_due_back pk) (BookInstance_objects db)
            (BookInstance_objects
               (BookInstance_save (BookInstance.set_due_back d obj) db)))
    as Hframe.
  { rewrite Hsave. apply Forall2_map_r. intros r Hr.
    apply set_due_back_same; [exact Hobj |].
    intros Hk. apply (get_Found_unique _ _ _ _ _ Eget Hr Hk). }
  assert (forall r', In r' (BookInstance_objects
              (BookInstance_save (BookInstance.set_due_back d obj) db)) ->
            BookInstance.id r' = pk -> BookInstance.due_back r' = d) as Hdue.
  { rewrite Hsave. intros r' Hr' Hk. apply in_map_iff in Hr'.
    destruct Hr' as [r [E Hr]].
    destruct (BookInstance.id r =? pk) eqn:Ek.
    - subst r'. reflexivity.
    - subst r'. apply Z.eqb_neq in Ek. contradiction. }
  assert (exists r', In r' (BookInstance_objects
              (BookInstance_save (BookInstance.set_due_back d obj) db)) /\
            BookInstance.id r' = pk) as Hex.
  { exists (BookInstance.set_due_back d obj). split; [| exact Hobj].
    rewrite Hsave. apply in_map_iff. exists obj. split; [| exact Hin].
    rewrite Hobj, Z.eqb_refl. reflexivity. }
  destruct (reverse "borrowed-books" []); simpl;
    (split; [exact Hframe |]); repeat (split; [reflexivity |]).
  - intros url _. exists d. repeat split; assumption.
  - discriminate.
Qed.

(** C5. For a request that is not a POST, from a caller who passes the
    decorators, for an existing instance, the page shows an unbound form
    whose initial renewal date is today plus 21 days, and nothing is
    written.  The date must exist: today is a date and so is the day three
    weeks later. *)
Theorem renew_proposes_three_weeks `{URLconf} `{Forms}
    (today : date) (pk : Z) (request : HttpRequest QueryDict) (db : Catalog)
    (obj : BookInstance.t) :
  datetime.valid today ->
  today + 21 <= datetime.MAXORDINAL ->
  is_authenticated (user request) = true ->
  has_perm (user request) "catalog.can_mark_returned" = true ->
  get BookInstance.id pk (BookInstance_objects db) = Found obj ->
  method request <> "POST" ->
  renew_book_librarian today pk request db =
  (render "catalog/book_renew_librarian.html"
     {| form := unbound_form (today + 21); book_instance := obj |}, db).
Proof.
  intros [Hlo _] Hhi Ea Ep Eget Hm.
  unfold renew_book_librarian, login_required, permission_required.
  rewrite Ea, Ep.
  unfold renew_book_librarian_body, with_object_or_404. rewrite Eget.
  apply String.eqb_neq in Hm. rewrite Hm.
  unfold datetime.add, datetime.timedelta_weeks. simpl datetime.days.
  replace (7 * 3) with 21 by reflexivity.
  replace (0 <? today + 21) with true by (symmetry; apply Z.ltb_lt; lia).
  replace (today + 21 <=? datetime.MAXORDINAL) with true
    by (symmetry; apply Z.leb_le; exact Hhi).
  reflexivity.
Qed.

(** ** Deleting *)

Lemma references_Some (fk : option Z) (key : Z) :
  references fk key = true <-> fk = Some key.
Proof.
  unfold references. destruct fk as [k|].
  - rewrite Z.eqb_eq. split; [intros -> | intros [= ->]]; reflexivity.
  - split; discriminate.
Qed.

Lemma delete_pk_In {M} (pk : M -> Z) key table r :
  In r (delete_pk pk key table) <-> In r table /\ pk r <> key.
Proof.
  unfold delete_pk. rewrite filter_In, negb_true_iff, Z.eqb_neq. tauto.
Qed.

(** C3. [Book.delete()] on a book that a [BookInstance] references raises
    [RestrictedError], and no catalog results; it succeeds only when no
    instance references the book, and then removes the book and leaves the
    instances as they are. *)
Theorem Book_delete_restricted (self : Book.t) (db : Catalog) :
  ((exists i, In i (BookInstance_objects db) /\
              BookInstance.book i = Some (Book.id self)) ->
   Book_delete self db = inl RestrictedError) /\
  (forall db', Book_delete self db = inr db' ->
     forall i, In i (BookInstance_objects db) ->
               BookInstance.book i <> Some (Book.id self)) /\
  ((forall i, In i (BookInstance_objects db) ->
              BookInstance.book i <> Some (Book.id self)) ->
   exists db',
     Book_delete self db = inr db' /\
     (forall b, In b (Book_objects db') <->
                In b (Book_objects db) /\ Book.id b <> Book.id self) /\
     BookInstance_objects db' = BookInstance_objects db).
Proof.
  unfold Book_delete, BookInstance.book_on_delete, collect.
  destruct (existsb
              (fun i => references (BookInstance.book i) (Book.id self))
              (BookInstance_objects db)) eqn:Ex.
  - split; [reflexivity |]. split; [discriminate |].
    intros Hnone. apply existsb_exists in Ex. destruct Ex as [i [Hin Hr]].
    apply references_Some in Hr. exfalso. exact (Hnone i Hin Hr).
  - assert (forall i, In i (BookInstance_objects db) ->
                      BookInstance.book i <> Some (Book.id self)) as Hnone.
    { intros i Hin Hr.
      assert (existsb
                (fun i => references (BookInstance.book i) (Book.id self))
                (BookInstance_objects db) = true) as Ex'
        by (apply existsb_exists; exists i; split;
            [exact Hin | apply references_Some, Hr]).
      congruence. }
    split; [| split].
    + intros [i [Hin Hr]]. exfalso. exact (Hnone i Hin Hr).
    + intros _ _. exact Hnone.
    + intros _. eexists. split; [reflexivity |]. simpl.
      split; [intros b; apply delete_pk_In | reflexivity].
Qed.

(** C6. [Author.delete()] always succeeds, keeps every book, and changes in
    a book only [author], which becomes null where it pointed to the
    deleted author; the other tables of books are untouched and the author
    is gone. *)
Theorem Author_delete_sets_null (self : Author.t) (db : Catalog) :
  exists db',
    Author_delete self db = inr db' /\
    Forall2 (author_set_null (Author.id self))
      (Book_objects db) (Book_objects db') /\
    Book_genre db' = Book_genre db /\
    BookInstance_objects db' = BookInstance_objects db /\
    Genre_objects db' = Genre_objects db /\
    (forall a, In a (Author_objects db') <->
               In a (Author_objects db) /\ Author.id a <> Author.id self).
Proof.
  unfold Author_delete, Book.author_on_delete, collect.
  eexists. split; [reflexivity |]. simpl.
  split; [| split; [reflexivity |]; split; [reflexivity |];
             split; [reflexivity | intros a; apply delete_pk_In]].
  apply Forall2_map_r. intros b _. unfold author_set_null.
  destruct (references (Book.author b) (Author.id self)); simpl; tauto.
Qed.

(** ** The constraints on [Book] *)

Lemma next_pk_above {M} (pk : M -> Z) table r :
  In r table -> pk r < next_pk pk table.
Proof.
  unfold next_pk. induction table as [|a l IH]; cbn [fold_right In];
    [intros [] |].
  intros [-> | Hin]; [lia |]. specialize (IH Hin). lia.
Qed.

Lemma NoDup_snoc {A} (l : list A) x : NoDup l -> ~ In x l -> NoDup (l ++ [x]).
Proof.
  intros Hl Hx. apply NoDup_app.
  - exact Hl.
  - constructor; [intros [] | constructor].
  - intros a Ha [<- | []]. exact (Hx Ha).
Qed.

Lemma NoDup_map_filter {A B} (f : A -> B) (p : A -> bool) l :
  NoDup (map f l) -> NoDup (map f (filter p l)).
Proof.
  induction l as [|a l IH]; simpl; [trivial |].
  intros Hnd. inversion Hnd as [|? ? Hnotin Hrest]; subst.
  destruct (p a); simpl; [| exact (IH Hrest)].
  constructor; [| exact (IH Hrest)].
  intros Hin. apply Hnotin. apply in_map_iff in Hin.
  destruct Hin as [b [E Hb]]. apply filter_In in Hb.
  apply in_map_iff. exists b. tauto.
Qed.

Lemma Forall_filter {A} (P : A -> Prop) (p : A -> bool) l :
  Forall P l -> Forall P (filter p l).
Proof.
  rewrite !Forall_forall. intros H x Hx. apply filter_In in Hx. apply H, Hx.
Qed.

Lemma CharField_clean_length n raw v :
  CharField_clean n raw = Some v -> (String.length v <= n)%nat /\ v <> "".
Proof.
  unfold CharField_clean.
  destruct (String.eqb (strip raw) "") eqn:Ee; [discriminate |].
  destruct ((String.length (strip raw) <=? n)%nat) eqn:El; simpl;
    [| discriminate].
  destruct (contains_nul (strip raw)); simpl; [discriminate |].
  intros [= <-]. split; [apply Nat.leb_le, El | apply String.eqb_neq, Ee].
Qed.

Lemma BookForm_clean_isbn instance d db cleaned :
  BookForm.clean instance d db = Some cleaned ->
  (String.length (BookForm.isbn cleaned) <= Book.isbn_max_length)%nat /\
  BookForm.isbn_taken instance (BookForm.isbn cleaned) db = false.
Proof.
  unfold BookForm.clean.
  destruct (CharField_clean 200 (BookForm.title d)); [| discriminate].
  destruct (BookForm.clean_author db (BookForm.author d)); [| discriminate].
  destruct (CharField_clean 1000 (BookForm.summary d)); [| discriminate].
  destruct (CharField_clean Book.isbn_max_length (BookForm.isbn d))
    as [i|] eqn:Ei; [| discriminate].
  destruct (BookForm.clean_genre db (BookForm.genre d)); [| discriminate].
  destruct (BookForm.isbn_taken instance i db) eqn:Et; [discriminate |].
  intros [= <-]. simpl. split; [| exact Et].
  apply CharField_clean_length in Ei. apply Ei.
Qed.

Lemma isbn_taken_false instance value db b :
  BookForm.isbn_taken instance value db = false ->
  In b (Book_objects db) ->
  match instance with
  | Some self => Book.id b <> Book.id self
  | None => True
  end ->
  Book.isbn b <> value.
Proof.
  unfold BookForm.isbn_taken. intros Et Hin Hother Heq.
  assert (existsb
            (fun b => String.eqb (Book.isbn b) value &&
                      match instance with
                      | Some self => negb (Book.id b =? Book.id self)
                      | None => true
                      end) (Book_objects db) = true) as Ex; [| congruence].
  apply existsb_exists. exists b. split; [exact Hin |].
  apply andb_true_iff. split; [apply String.eqb_eq, Heq |].
  destruct instance; [| reflexivity].
  apply negb_true_iff, Z.eqb_neq, Hother.
Qed.

Lemma update_keeps_ids (l : list Book.t) key obj :
  Book.id obj = key ->
  map Book.id (map (fun r => if Book.id r =? key then obj else r) l)
  = map Book.id l.
Proof.
  intros Hk. rewrite map_map. apply map_ext. intros r.
  destruct (Book.id r =? key) eqn:E; [| reflexivity].
  apply Z.eqb_eq in E. congruence.
Qed.

Lemma update_keeps_isbn_unique (l : list Book.t) key obj :
  NoDup (map Book.id l) -> NoDup (map Book.isbn l) ->
  (forall r, In r l -> Book.id r <> key -> Book.isbn r <> Book.isbn obj) ->
  NoDup (map Book.isbn (map (fun r => if Book.id r =? key then obj else r) l)).
Proof.
  induction l as [|a l IH]; simpl; intros Hid Hisbn Hnew; [constructor |].
  inversion Hid as [|? ? Hida Hidl]; subst.
  inversion Hisbn as [|? ? Hisa Hisl]; subst.
  destruct (Book.id a =? key) eqn:E.
  - apply Z.eqb_eq in E.
    assert (map (fun r => if Book.id r =? key then obj else r) l = l) as ->.
    { rewrite <- (map_id l) at 2. apply map_ext_in. intros r Hr.
      destruct (Book.id r =? key) eqn:Er; [| reflexivity].
      apply Z.eqb_eq in Er. exfalso. apply Hida.
      apply in_map_iff. exists r. split; [congruence | exact Hr]. }
    constructor; [| exact Hisl].
    intros Hin. apply in_map_iff in Hin. destruct Hin as [r [Er Hr]].
    apply (Hnew r); [right; exact Hr | | exact Er].
    intros Hk. apply Hida. apply in_map_iff. exists r.
    split; [congruence | exact Hr].
  - apply Z.eqb_neq in E. constructor.
    + intros Hin. apply in_map_iff in Hin. destruct Hin as [r' [Er' Hr']].
      apply in_map_iff in Hr'. destruct Hr' as [r [Er Hr]].
      destruct (Book.id r =? key) eqn:Ek; subst r'.
      * apply (Hnew a); [left; reflexivity | exact E | symmetry; exact Er'].
      * apply Hisa. apply in_map_iff. exists r. split; assumption.
    + apply IH; [exact Hidl | exact Hisl |].
      intros r Hr. apply Hnew. right. exact Hr.
Qed.

Lemma create_keeps_constraints db d cleaned :
  Book_constraints db ->
  BookForm.clean None d db = Some cleaned ->
  Book_constraints (snd (BookForm.save None cleaned db)).
Proof.
  intros [Hid [Hisbn Hlen]] Hc.
  destruct (BookForm_clean_isbn _ _ _ _ Hc) as [Hl Ht].
  unfold Book_constraints. simpl. rewrite !map_app. simpl.
  split; [| split].
  - apply NoDup_snoc; [exact Hid |].
    intros Hin. apply in_map_iff in Hin. destruct Hin as [r [E Hr]].
    pose proof (next_pk_above Book.id _ _ Hr). lia.
  - apply NoDup_snoc; [exact Hisbn |].
    intros Hin. apply in_map_iff in Hin. destruct Hin as [r [E Hr]].
    exact (isbn_taken_false None _ db r Ht Hr I E).
  - apply Forall_app. split; [exact Hlen |].
    constructor; [exact Hl | constructor].
Qed.

Lemma update_keeps_constraints db key self d cleaned :
  Book_constraints db ->
  get Book.id key (Book_objects db) = Found self ->
  BookForm.clean (Some self) d db = Some cleaned ->
  Book_constraints (snd (BookForm.save (Some self) cleaned db)).
Proof.
  intros [Hid [Hisbn Hlen]] Hget Hc.
  destruct (BookForm_clean_isbn _ _ _ _ Hc) as [Hl Ht].
  destruct (get_Found_In _ _ _ _ Hget) as [Hin Hkey].
  unfold Book_constraints. simpl.
  rewrite (save_Found Book.id (Book.id self) _ self).
  2: { rewrite Hkey. exact Hget. }
  2: reflexivity.
  split; [| split].
  - rewrite update_keeps_ids; [exact Hid | reflexivity].
  - apply update_keeps_isbn_unique; [exact Hid | exact Hisbn |].
    intros r Hr Hne. simpl.
    exact (isbn_taken_false (Some self) _ db r Ht Hr Hne).
  - apply Forall_forall. intros r' Hr'. apply in_map_iff in Hr'.
    destruct Hr' as [r [E Hr]].
    destruct (Book.id r =? Book.id self); subst r'.
    + exact Hl.
    + rewrite Forall_forall in Hlen. apply Hlen, Hr.
Qed.

Lemma Book_delete_keeps_constraints db self db' :
  Book_constraints db -> Book_delete self db = inr db' -> Book_constraints db'.
Proof.
  intros [Hid [Hisbn Hlen]]. unfold Book_delete.
  destruct (collect BookInstance.book_on_delete _ _ _); [discriminate |].
  simpl. intros [= <-]. unfold Book_constraints, delete_pk. simpl.
  split; [| split].
  - apply NoDup_map_filter, Hid.
  - apply NoDup_map_filter, Hisbn.
  - apply Forall_filter, Hlen.
Qed.

Lemma Author_delete_keeps_constraints db self db' :
  Book_constraints db -> Author_delete self db = inr db' ->
  Book_constraints db'.
Proof.
  intros [Hid [Hisbn Hlen]]. unfold Author_delete. simpl.
  intros [= <-]. unfold Book_constraints. simpl.
  assert (forall f : Book.t -> Book.t,
            (forall b, f b = b \/ f b = Book.set_author None b) ->
            forall b, Book.id (f b) = Book.id b /\
                      Book.isbn (f b) = Book.isbn b) as Hsame
    by (intros f Hf b; destruct (Hf b) as [-> | ->]; split; reflexivity).
  set (f := fun b : Book.t =>
              if references (Book.author b) (Author.id self)
              then Book.set_author None b else b).
  assert (forall b, f b = b \/ f b = Book.set_author None b) as Hf
    by (intros b; unfold f;
        destruct (references (Book.author b) (Author.id self)); auto).
  specialize (Hsame f Hf).
  rewrite !map_map.
  rewrite (map_ext (fun b => Book.id (f b)) Book.id)
    by (intros b; apply Hsame).
  rewrite (map_ext (fun b => Book.isbn (f b)) Book.isbn)
    by (intros b; apply Hsame).
  split; [exact Hid | split; [exact Hisbn |]].
  apply Forall_forall. intros b' Hb'. apply in_map_iff in Hb'.
  destruct Hb' as [b [<- Hb]]. rewrite (proj2 (Hsame b)).
  rewrite Forall_forall in Hlen. apply Hlen, Hb.
Qed.

(** C8, as the code has it.  In every reachable catalog the isbn of each
    book has at most 13 characters and no two books share an isbn (nor a
    key); each way of writing the [Book] table keeps that. *)
Theorem reachable_Book_constraints (db : Catalog) :
  reachable db -> Book_constraints db.
Proof.
  induction 1 as [| db d cleaned _ IH Hc | db key self d cleaned _ IH Hg Hc
                  | db self db' _ IH Hd | db self db' _ IH Hd
                  | db db' _ IH Heq].
  - unfold Book_constraints. simpl. repeat constructor.
  - exact (create_keeps_constraints _ _ _ IH Hc).
  - exact (update_keeps_constraints _ _ _ _ _ IH Hg Hc).
  - exact (Book_delete_keeps_constraints _ _ _ IH Hd).
  - exact (Author_delete_keeps_constraints _ _ _ IH Hd).
  - unfold Book_constraints in *. rewrite Heq. exact IH.
Qed.

(** The views stay within the reachable catalogs. *)

Lemma renew_reachable `{URLconf} `{Forms} today pk request db :
  reachable db -> reachable (snd (renew_book_librarian today pk request db)).
Proof.
  intros Hr. apply reach_other with (db := db); [exact Hr |].
  unfold renew_book_librarian, login_required, permission_required.
  destruct (is_authenticated (user request)); [| reflexivity].
  destruct (has_perm (user request) "catalog.can_mark_returned");
    [| reflexivity].
  unfold renew_book_librarian_body, with_object_or_404.
  destruct (get BookInstance.id pk (BookInstance_objects db));
    try reflexivity.
  destruct (String.eqb (method request) "POST").
  - destruct (RenewBookForm_clean today (POST request));
      [destruct (reverse "borrowed-books" []) |]; reflexivity.
  - destruct (datetime.add today (datetime.timedelta_weeks 3)); reflexivity.
Qed.

Lemma BookCreate_reachable `{URLconf} request db :
  reachable db -> reachable (snd (BookCreate.post request db)).
Proof.
  intros Hr. unfold BookCreate.post, PermissionRequiredMixin.
  destruct (has_perm (user request) BookCreate.permission_required);
    [| exact Hr].
  destruct (BookForm.clean None (POST request) db) as [cleaned|] eqn:Hc;
    [| exact Hr].
  pose proof (reach_create db (POST request) cleaned Hr Hc) as Hr'.
  destruct (BookForm.save None cleaned db) as [object db'].
  destruct (Book.get_absolute_url object); exact Hr'.
Qed.

Lemma AuthorDelete_reachable `{URLconf} pk request db :
  reachable db -> reachable (snd (AuthorDelete.post pk request db)).
Proof.
  intros Hr. unfold AuthorDelete.post, PermissionRequiredMixin.
  destruct (has_perm (user request) AuthorDelete.permission_required);
    [| exact Hr].
  unfold with_object_or_404.
  destruct (get Author.id pk (Author_objects db)) as [object | |];
    try exact Hr.
  destruct (reverse "authors" []); [| exact Hr].
  destruct (Author_delete object db) as [e | db'] eqn:Hd; [exact Hr |].
  exact (reach_Author_delete db object db' Hr Hd).
Qed.

(** ** Concrete backends *)

Lemma String_compare_trans (x y z : string) :
  String.compare x y <> Gt -> String.compare y z <> Gt ->
  String.compare x z <> Gt.
Proof.
  revert y z. induction x as [|a x IH]; intros [|b y] [|c z]; simpl;
    try congruence.
  unfold Ascii.compare.
  destruct (N.compare_spec (N_of_ascii a) (N_of_ascii b)) as [Eab | Lab | Gab];
    destruct (N.compare_spec (N_of_ascii b) (N_of_ascii c)) as [Ebc | Lbc | Gbc];
    destruct (N.compare_spec (N_of_ascii a) (N_of_ascii c)) as [Eac | Lac | Gac];
    try congruence; try lia.
  apply IH.
Qed.

Lemma String_leb_trans : transitive String.leb.
Proof.
  intros x y z. unfold String.leb. intros Hxy Hyz.
  pose proof (String_compare_trans x y z) as Ht.
  destruct (String.compare x y); try discriminate;
    destruct (String.compare y z); try discriminate;
    destruct (String.compare x z); try reflexivity;
    exfalso; apply Ht; congruence.
Qed.

(** Binary collation with NULLs first (SQLite), and with NULLs last. *)
Definition binary_nulls_first : Backend :=
  {| collate := String.leb; collate_total := String.leb_total;
     collate_trans := String_leb_trans; nulls_first := true |}.

Definition binary_nulls_last : Backend :=
  {| collate := String.leb; collate_total := String.leb_total;
     collate_trans := String_leb_trans; nulls_first := false |}.


(** ** The model at work *)

Example overdue_the_day_after :
  BookInstance.is_overdue 739000 (copy 7 (Some 739000) None "o") = false /\
  BookInstance.is_overdue 739001 (copy 7 (Some 739000) None "o") = true /\
  BookInstance.is_overdue 739001 (copy 7 None None "o") = false.
Proof. repeat split. Qed.

Example loans_of_reader :
  map BookInstance.id
    (@LoanedBooksByUserListView.get_queryset binary_nulls_first reader
       example_catalog) = [9; 7].
Proof. reflexivity. Qed.

Example loans_of_everyone_nulls_first :
  map BookInstance.id
    (@BorrowedBooksListView.get_queryset binary_nulls_first example_catalog)
  = [10; 9; 7].
Proof. reflexivity. Qed.

Example loans_of_everyone_nulls_last :
  map BookInstance.id
    (@BorrowedBooksListView.get_queryset binary_nulls_last example_catalog)
  = [9; 7; 10].
Proof. reflexivity. Qed.

Example reader_cannot_see_all_loans :
  @BorrowedBooksListView.get binary_nulls_first (LoggedIn reader) 1
    example_catalog = HttpResponseForbidden /\
  @BorrowedBooksListView.get binary_nulls_first AnonymousUser 1
    example_catalog = redirect_to_login.
Proof. split; reflexivity. Qed.

Example librarian_renews :
  let request :=
    post_request (LoggedIn librarian) [("renewal_date", "739014")] in
  let result :=
    @renew_book_librarian example_urls example_forms example_today 7
      request example_catalog in
  fst result = HttpResponseRedirect "/catalog/borrowed/" /\
  map BookInstance.due_back (BookInstance_objects (snd result))
  = [Some 739014; None; Some 738990; None].
Proof. split; reflexivity. Qed.

Example reader_cannot_renew :
  @renew_book_librarian example_urls example_forms example_today 7
    (post_request (LoggedIn reader) [("renewal_date", "739014")])
    example_catalog
  = (HttpResponseForbidden, example_catalog).
Proof. reflexivity. Qed.

Example renew_rejects_a_late_date :
  let request :=
    post_request (LoggedIn librarian) [("renewal_date", "739100")] in
  @renew_book_librarian example_urls example_forms example_today 7
    request example_catalog
  = (render "catalog/book_renew_librarian.html"
       {| form := bound_form (POST request);
          book_instance := copy 7 (Some 739010) (Some 3) "o" |},
     example_catalog).
Proof. reflexivity. Qed.

Example renew_unknown_instance :
  @renew_book_librarian example_urls example_forms example_today 99
    (get_request (LoggedIn librarian)) example_catalog
  = (HttpResponseNotFound, example_catalog).
Proof. reflexivity. Qed.

Example renew_at_the_end_of_time :
  @renew_book_librarian example_urls example_forms datetime.MAXORDINAL 7
    (get_request (LoggedIn librarian)) example_catalog
  = (HttpResponseServerError OverflowError, example_catalog).
Proof. reflexivity. Qed.

Example referenced_book_is_not_deleted :
  Book_delete
    {| Book.id := 1; Book.title := "Emma"; Book.author := Some 1;
       Book.summary := "A novel"; Book.isbn := "9780141439587" |}
    example_catalog = inl RestrictedError.
Proof. reflexivity. Qed.

Example author_deleted_book_kept :
  match Author_delete
          {| Author.id := 1; Author.first_name := "Jane";
             Author.last_name := "Austen"; Author.date_of_birth := None;
             Author.date_of_death := None |} example_catalog with
  | inr db' =>
      Book_objects db' =
      [ {| Book.id := 1; Book.title := "Emma"; Book.author := None;
           Book.summary := "A novel"; Book.isbn := "9780141439587" |} ] /\
      Author_objects db' = []
  | inl _ => False
  end.
Proof. split; reflexivity. Qed.

Example isbn_field_cleaning :
  CharField_clean 13 " 9780141439587 " = Some "9780141439587" /\
  CharField_clean 13 "97801414395870" = None /\
  CharField_clean 13 "   " = None /\
  CharField_clean 13 "123" = Some "123".
Proof. repeat split. Qed.

Example duplicate_isbn_is_refused :
  BookForm.clean None
    {| BookForm.title := "Emma again"; BookForm.author := Some 1;
       BookForm.summary := "A novel"; BookForm.isbn := "9780141439587";
       BookForm.genre := [1] |} example_catalog = None.
Proof. reflexivity. Qed.

(** With routes that take an integer key, [BookCreate] saves the book and
    then fails to build the redirect. *)
Example BookCreate_saves_then_fails :
  @BookCreate.post example_urls
    {| method := "POST"; user := LoggedIn superuser;
       POST := short_isbn_form |} catalog_without_books
  = (HttpResponseServerError NoReverseMatch, short_isbn_catalog).
Proof. reflexivity. Qed.

Example Author_url_depends_on_the_author :
  @Author.get_absolute_url example_urls
    {| Author.id := 12; Author.first_name := "Jane";
       Author.last_name := "Austen"; Author.date_of_birth := None;
       Author.date_of_death := None |} = Some "/catalog/author/12".
Proof. reflexivity. Qed.

Example third_page_of_23 :
  Paginator_page 10 (seq 0 23) 3 = Some [20; 21; 22]%nat /\
  Paginator_page 10 (seq 0 23) 4 = None /\
  Paginator_page 10 (@nil nat) 1 = Some [].
Proof. repeat split. Qed.

Lemma short_isbn_catalog_reachable : reachable short_isbn_catalog.
Proof.
  apply (reach_create catalog_without_books short_isbn_form short_isbn_form).
  - apply (reach_other empty_catalog); [apply reach_empty | reflexivity].
  - reflexivity.
Qed.

(** C2, on a request: an anonymous POST of a valid date. *)
Lemma renew_unchanged_unless_accepted_witness :
  let request := post_request AnonymousUser [("renewal_date", "739014")] in
  ~ @renewal_accepted example_forms example_today request /\
  (snd (@renew_book_librarian example_urls example_forms example_today 7
          request example_catalog) = example_catalog /\
   (is_authenticated (user request) = false ->
    @renew_book_librarian example_urls example_forms example_today 7
      request example_catalog = (redirect_to_login, example_catalog)) /\
   (is_authenticated (user request) = true ->
    has_perm (user request) "catalog.can_mark_returned" = false ->
    @renew_book_librarian example_urls example_forms example_today 7
      request example_catalog = (HttpResponseForbidden, example_catalog))).
Proof.
  cbv zeta.
  assert (~ @renewal_accepted example_forms example_today
              (post_request AnonymousUser [("renewal_date", "739014")]))
    as Hno by (intros [Ha _]; discriminate Ha).
  split; [exact Hno |].
  exact (@renew_unchanged_unless_accepted example_urls example_forms
           example_today 7 _ example_catalog Hno).
Defined.

(** C5, on a request: the librarian opens the renewal page of copy 7. *)
Lemma renew_proposes_three_weeks_witness :
  @renew_book_librarian example_urls example_forms example_today 7
    (get_request (LoggedIn librarian)) example_catalog
  = (render "catalog/book_renew_librarian.html"
       {| form := unbound_form 739021;
          book_instance := copy 7 (Some 739010) (Some 3) "o" |},
     example_catalog).
Proof.
  apply (@renew_proposes_three_weeks example_urls example_forms
           example_today 7 (get_request (LoggedIn librarian)) example_catalog
           (copy 7 (Some 739010) (Some 3) "o")).
  - unfold datetime.valid, datetime.MAXORDINAL, example_today. lia.
  - unfold datetime.MAXORDINAL, example_today. lia.
  - reflexivity.
  - reflexivity.
  - reflexivity.
  - simpl. discriminate.
Defined.

(** C8, on the catalog with the three-character isbn. *)
Lemma reachable_Book_constraints_witness :
  reachable short_isbn_catalog /\ Book_constraints short_isbn_catalog.
Proof.
  split; [exact short_isbn_catalog_reachable |].
  exact (reachable_Book_constraints short_isbn_catalog
           short_isbn_catalog_reachable).
Defined.

(** C8 as worded does not hold: a book with the isbn ["123"] passes the
    form, so a reachable catalog has an isbn that is not 13 characters
    long. *)
Lemma isbn_shorter_than_13_reachable :
  reachable short_isbn_catalog /\ ~ isbn_13_and_unique short_isbn_catalog.
Proof.
  split; [exact short_isbn_catalog_reachable |].
  intros [Hlen _]. inversion Hlen as [|b l H13 _]; subst.
  simpl in H13. discriminate H13.
Qed.

(** ** Cleaning text *)

Lemma lstrip_starts_clean s : starts_clean (lstrip s).
Proof.
  induction s as [|c s IH]; simpl; [exact I |].
  destruct (isspace c) eqn:E; [exact IH | exact E].
Qed.

Lemma lstrip_clean s : starts_clean s -> lstrip s = s.
Proof. destruct s as [|c s]; simpl; [reflexivity | intros ->; reflexivity]. Qed.

Lemma rstrip_starts_clean s : starts_clean s -> starts_clean (rstrip s).
Proof.
  destruct s as [|c s]; simpl; [trivial |]. intros E.
  destruct (rstrip s); [rewrite E |]; exact E.
Qed.

Lemma rstrip_idempotent s : rstrip (rstrip s) = rstrip s.
Proof.
  induction s as [|c s IH]; simpl; [reflexivity |].
  destruct (rstrip s) as [|d r] eqn:Er.
  - destruct (isspace c) eqn:E; simpl; [reflexivity | rewrite E; reflexivity].
  - change (rstrip (String c (String d r))) with
      (match rstrip (String d r) with
       | EmptyString =>
           if isspace c then EmptyString else String c EmptyString
       | String a t => String c (String a t)
       end).
    rewrite IH. reflexivity.
Qed.

Lemma strip_idempotent s : strip (strip s) = strip s.
Proof.
  unfold strip.
  rewrite (lstrip_clean (rstrip (lstrip s))).
  - apply rstrip_idempotent.
  - apply rstrip_starts_clean, lstrip_starts_clean.
Qed.

Lemma CharField_clean_text n raw v :
  CharField_clean n raw = Some v -> clean_text n v.
Proof.
  intros E. destruct (CharField_clean_length n raw v E) as [Hlen Hne].
  unfold CharField_clean in E.
  destruct (String.eqb (strip raw) ""); [discriminate |].
  destruct ((String.length (strip raw) <=? n)%nat && negb (contains_nul (strip raw)));
    [| discriminate].
  injection E as <-. repeat split; try assumption. apply strip_idempotent.
Qed.

(** ** The home page *)

Lemma session_get_set key value default s :
  session_get key default (session_set key value s) = value.
Proof.
  induction s as [|[k v] s IH]; simpl.
  - rewrite String.eqb_refl. reflexivity.
  - destruct (String.eqb k key) eqn:E; simpl.
    + rewrite String.eqb_refl. reflexivity.
    + rewrite E. exact IH.
Qed.

Lemma session_get_set_other key key' value default s :
  key' <> key ->
  session_get key' default (session_set key value s)
  = session_get key' default s.
Proof.
  intros Hne. induction s as [|[k v] s IH]; simpl.
  - apply String.eqb_neq in Hne. rewrite String.eqb_sym, Hne. reflexivity.
  - destruct (String.eqb k key) eqn:E; simpl.
    + apply String.eqb_eq in E. subst k.
      apply String.eqb_neq in Hne. rewrite String.eqb_sym in Hne.
      rewrite Hne. reflexivity.
    + destruct (String.eqb k key'); [reflexivity | exact IH].
Qed.

(** X1. In one session the home page counts its own requests: request
    number [i] (from 0) shows the stored count plus [i], nothing is shown
    twice or skipped, the session ends with the count raised by the number
    of requests, and no other entry of the session changes. *)
Theorem index_counts_visits (n : nat) (session : Session) (db : Catalog) :
  let first := session_get "num_visits" 0 session in
  let responses := fst (index_times n session db) in
  let session' := snd (index_times n session db) in
  List.length responses = n /\
  (forall i response, nth_error responses i = Some response ->
     exists context,
       response = render "index.html" context /\
       num_visits context = first + Z.of_nat i) /\
  session_get "num_visits" 0 session' = first + Z.of_nat n /\
  (forall key default, key <> "num_visits" ->
     session_get key default session' = session_get key default session).
Proof.
  cbv zeta. revert session.
  induction n as [|n IH]; intros session.
  - simpl. split; [reflexivity |]. split.
    + intros [|i] response E; discriminate E.
    + split; [lia | reflexivity].
  - cbn [index_times]. unfold index.
    set (s1 := session_set "num_visits"
                 (session_get "num_visits" 0 session + 1) session).
    specialize (IH s1).
    destruct (index_times n s1 db) as [responses session'] eqn:Et.
    cbn [fst snd] in *.
    destruct IH as [Hlen [Hnth [Hlast Hother]]].
    assert (session_get "num_visits" 0 s1
            = session_get "num_visits" 0 session + 1) as Hs1
      by (unfold s1; apply session_get_set).
    split; [simpl; rewrite Hlen; reflexivity |]. split; [| split].
    + intros [|i] response E; simpl in E.
      * injection E as <-. eexists. split; [reflexivity |]. simpl. lia.
      * destruct (Hnth i response E) as [context [Er Hv]].
        exists context. split; [exact Er |]. rewrite Hv, Hs1. lia.
    + rewrite Hlast, Hs1. lia.
    + intros key default Hne. rewrite (Hother key default Hne).
      unfold s1. apply session_get_set_other, Hne.
Qed.

Lemma filter_disjoint_length {A} (p q : A -> bool) (l : list A) :
  (forall x, p x = true -> q x = false) ->
  (List.length (filter p l) + List.length (filter q l) <= List.length l)%nat.
Proof.
  intros Hpq. induction l as [|a l IH]; simpl; [lia |].
  destruct (p a) eqn:Ep.
  - rewrite (Hpq a Ep). simpl. lia.
  - destruct (q a); simpl; lia.
Qed.

(** X2. The counts of the home page agree with the lists of the site: there
    are as many books and authors as the book and author lists have
    entries, and the available copies and the copies on the list of
    borrowed books together are no more than all copies. *)
Theorem index_counts_agree_with_lists `{Backend} (session : Session)
    (db : Catalog) :
  exists context,
    fst (index session db) = render "index.html" context /\
    num_books context = List.length (BookListView.get_queryset db) /\
    num_authors context = List.length (AuthorListView.get_queryset db) /\
    num_genres context = List.length (Genre_objects_all db) /\
    num_instances context = List.length (BookInstance_objects_all db) /\
    (num_instances_available context
     + List.length (BorrowedBooksListView.get_queryset db)
     <= num_instances context)%nat.
Proof.
  eexists. split; [reflexivity |]. simpl.
  split; [reflexivity |].
  split; [symmetry; apply Permutation_length, order_by_perm |].
  split; [symmetry; apply Permutation_length, order_by_perm |].
  split; [symmetry; apply Permutation_length, order_by_perm |].
  unfold BorrowedBooksListView.get_queryset, order_by_due_back.
  rewrite (Permutation_length (order_by_perm _ _)).
  apply filter_disjoint_length. intros i Ea.
  apply String.eqb_eq in Ea. rewrite Ea. reflexivity.
Qed.

(** ** Methods of the models *)







(** X4. [__str__] and [get_absolute_url] of [BookInstance] reach through
    [self.book], which may be null: they raise [AttributeError] for an
    instance without a book, and for no other. *)
Theorem BookInstance_methods_need_a_book `{URLconf} (self : BookInstance.t)
    (db : Catalog) :
  (BookInstance_str self db = inl AttributeError <->
   BookInstance.book self = None) /\
  (BookInstance_get_absolute_url self db = inl AttributeError <->
   BookInstance.book self = None).
Proof.
  unfold BookInstance_str, BookInstance_get_absolute_url, BookInstance_book.
  destruct (BookInstance.book self) as [key|].
  - destruct (get Book.id key (Book_objects db)) as [b | |];
      [destruct (reverse "book-detail" [str_Z (Book.id b)]) | |];
      split; split; discriminate.
  - split; split; reflexivity.
Qed.

Section ManagerLookups.
Context {M : Type} (pk : M -> Z).

Lemma filter_pk_none key (table : list M) :
  (forall r, In r table -> pk r <> key) ->
  filter (fun r => pk r =? key) table = [].
Proof.
  induction table as [|a l IH]; simpl; intros Hne; [reflexivity |].
  destruct (pk a =? key) eqn:E.
  - apply Z.eqb_eq in E. exfalso. exact (Hne a (or_introl eq_refl) E).
  - apply IH. intros r Hr. apply Hne. right. exact Hr.
Qed.

Lemma get_missing key (table : list M) :
  (forall r, In r table -> pk r <> key) -> get pk key table = DoesNotExist.
Proof. intros Hne. unfold get. rewrite filter_pk_none by exact Hne. reflexivity. Qed.

Lemma get_stored (table : list M) r :
  NoDup (map pk table) -> In r table -> get pk (pk r) table = Found r.
Proof.
  intros Hnd Hin. unfold get.
  assert (filter (fun x => pk x =? pk r) table = [r]) as ->; [| reflexivity].
  induction table as [|a l IH]; simpl in *; [contradiction |].
  inversion Hnd as [|? ? Hnotin Hrest]; subst.
  destruct Hin as [-> | Hin].
  - rewrite Z.eqb_refl. f_equal. apply filter_pk_none.
    intros x Hx E. apply Hnotin. rewrite <- E. apply in_map, Hx.
  - destruct (pk a =? pk r) eqn:E.
    + apply Z.eqb_eq in E. exfalso. apply Hnotin. rewrite E.
      apply in_map, Hin.
    + exact (IH Hrest Hin).
Qed.

Lemma get_appended (table : list M) obj :
  (forall r, In r table -> pk r <> pk obj) ->
  get pk (pk obj) (table ++ [obj]) = Found obj.
Proof.
  intros Hne. unfold get. rewrite filter_app, filter_pk_none by exact Hne.
  simpl. rewrite Z.eqb_refl. reflexivity.
Qed.


End ManagerLookups.

(** ** Detail pages *)

(** X5. With unique keys, the detail page of the key of a stored author or
    book shows that row; for a key that no row has, the page is a 404. *)
Theorem detail_views_show_the_row (db : Catalog) :
  NoDup (map Author.id (Author_objects db)) ->
  NoDup (map Book.id (Book_objects db)) ->
  (forall a, In a (Author_objects db) ->
     AuthorDetailView.get (Author.id a) db
     = render "catalog/author_detail.html" a) /\
  (forall b, In b (Book_objects db) ->
     BookDetailView.get (Book.id b) db = render "catalog/book_detail.html" b) /\
  (forall pk, (forall a, In a (Author_objects db) -> Author.id a <> pk) ->
     AuthorDetailView.get pk db = HttpResponseNotFound) /\
  (forall pk, (forall b, In b (Book_objects db) -> Book.id b <> pk) ->
     BookDetailView.get pk db = HttpResponseNotFound).
Proof.
  intros Ha Hb. unfold AuthorDetailView.get, BookDetailView.get.
  split; [| split; [| split]].
  - intros a Hin. rewrite (get_stored Author.id _ a Ha Hin). reflexivity.
  - intros b Hin. rewrite (get_stored Book.id _ b Hb Hin). reflexivity.
  - intros pk Hne. rewrite (get_missing Author.id pk _ Hne). reflexivity.
  - intros pk Hne. rewrite (get_missing Book.id pk _ Hne). reflexivity.
Qed.

(** ** The views behind ['user.is_staff'] *)

(** X6. The views that require ['user.is_staff'] ask for a permission of
    that name, not for the staff flag: a user who is not a superuser and
    does not hold the permission is refused with 403 by each of them,
    staff or not, and nothing is written. *)
Theorem staff_flag_opens_no_view `{URLconf} `{Backend} (u : User.t)
    (db : Catalog) (users : list User.t) (pk : Z) (page : nat)
    (a : AuthorForm.data) (b : BookForm.data) (i : BookInstanceForm.data)
    (g : string) :
  User.is_superuser u = false ->
  ~ In "user.is_staff" (User.permissions u) ->
  AuthorCreate.post (post_of (LoggedIn u) a) db
  = (HttpResponseForbidden, db) /\
  AuthorUpdate.post pk (post_of (LoggedIn u) a) db
  = (HttpResponseForbidden, db) /\
  AuthorDelete.post pk (post_of (LoggedIn u) tt) db
  = (HttpResponseForbidden, db) /\
  BookCreate.post (post_of (LoggedIn u) b) db
  = (HttpResponseForbidden, db) /\
  BookInstanceCreate.post users (post_of (LoggedIn u) i) db
  = (HttpResponseForbidden, db) /\
  GenreCreate.post (post_of (LoggedIn u) g) db
  = (HttpResponseForbidden, db) /\
  BorrowedBooksListView.get (LoggedIn u) page db = HttpResponseForbidden.
Proof.
  intros Hsuper Hperm.
  assert (has_perm (LoggedIn u) "user.is_staff" = false) as Hno.
  { unfold has_perm. rewrite Hsuper. cbn [orb].
    destruct (existsb (String.eqb "user.is_staff") (User.permissions u)) eqn:E;
      [| apply andb_false_r].
    apply existsb_exists in E. destruct E as [p [Hin Ep]].
    apply String.eqb_eq in Ep. subst p. contradiction. }
  unfold AuthorCreate.post, AuthorUpdate.post, AuthorDelete.post,
    BookCreate.post, BookInstanceCreate.post, GenreCreate.post,
    BorrowedBooksListView.get, PermissionRequiredMixin, post_of.
  cbn [user].
  unfold AuthorCreate.permission_required, AuthorUpdate.permission_required,
    AuthorDelete.permission_required, BookCreate.permission_required,
    BookInstanceCreate.permission_required, GenreCreate.permission_required,
    BorrowedBooksListView.permission_required.
  rewrite Hno. repeat split.
Qed.

(** ** Creating, editing and deleting authors *)

(** X7. [AuthorCreate] leaves the catalog as it is, or appends one author:
    the row has a key that no author had, names as the form cleans them,
    and the detail page of its key shows it; the other tables are never
    written. *)
Theorem AuthorCreate_appends_one `{URLconf}
    (request : HttpRequest AuthorForm.data) (db : Catalog) :
  let db' := snd (AuthorCreate.post request db) in
  Genre_objects db' = Genre_objects db /\
  Book_objects db' = Book_objects db /\
  Book_genre db' = Book_genre db /\
  BookInstance_objects db' = BookInstance_objects db /\
  (Author_objects db' = Author_objects db \/
   exists object,
     Author_objects db' = Author_objects db ++ [object] /\
     (forall a, In a (Author_objects db) -> Author.id a < Author.id object) /\
     clean_text 100 (Author.first_name object) /\
     clean_text 100 (Author.last_name object) /\
     AuthorDetailView.get (Author.id object) db'
     = render "catalog/author_detail.html" object).
Proof.
  cbv zeta. unfold AuthorCreate.post, PermissionRequiredMixin.
  destruct (has_perm (user request) AuthorCreate.permission_required);
    [| simpl; tauto].
  destruct (AuthorForm.construct (next_pk Author.id (Author_objects db))
              (POST request)) as [object|] eqn:Ec; [| simpl; tauto].
  assert (Author.id object = next_pk Author.id (Author_objects db)
          /\ clean_text 100 (Author.first_name object)
          /\ clean_text 100 (Author.last_name object)) as [Hid [Hf Hl]].
  { unfold AuthorForm.construct in Ec.
    destruct (CharField_clean 100 (AuthorForm.first_name (POST request)))
      as [f|] eqn:Ef; [| discriminate].
    destruct (CharField_clean 100 (AuthorForm.last_name (POST request)))
      as [l|] eqn:El; [| discriminate].
    destruct (DateField_clean (AuthorForm.date_of_birth (POST request)));
      [| discriminate].
    destruct (DateField_clean (AuthorForm.date_of_death (POST request)));
      [| discriminate].
    injection Ec as <-. simpl.
    split; [reflexivity |].
    split; eapply CharField_clean_text; eassumption. }
  assert (forall a, In a (Author_objects db) -> Author.id a < Author.id object)
    as Hfresh
    by (intros a Ha; rewrite Hid; apply next_pk_above, Ha).
  destruct (Author.get_absolute_url object); simpl;
    (repeat (split; [reflexivity |])); right; exists object;
    (split; [reflexivity |]); (split; [exact Hfresh |]);
    (split; [exact Hf |]); (split; [exact Hl |]);
    unfold AuthorDetailView.get; simpl;
    rewrite (get_appended Author.id (Author_objects db) object)
      by (intros a Ha; specialize (Hfresh a Ha); lia);
    reflexivity.
Qed.

Lemma filter_pk_map {M} (pk : M -> Z) key (f : M -> M) (table : list M) :
  (forall r, pk (f r) = pk r) ->
  filter (fun r => pk r =? key) (map f table)
  = map f (filter (fun r => pk r =? key) table).
Proof.
  intros Hf. induction table as [|a l IH]; simpl; [reflexivity |].
  rewrite Hf. destruct (pk a =? key); simpl; rewrite IH; reflexivity.
Qed.

Lemma get_after_update {M} (pk : M -> Z) key (table : list M) obj obj' :
  get pk key table = Found obj -> pk obj' = key ->
  get pk key (map (fun r => if pk r =? key then obj' else r) table)
  = Found obj'.
Proof.
  intros Eget Hk. pose proof (get_Found_In pk key table obj Eget) as [_ Hobj].
  apply get_Found in Eget. unfold get. rewrite filter_pk_map.
  - rewrite Eget. simpl. rewrite Hobj, Z.eqb_refl. reflexivity.
  - intros r. destruct (pk r =? key) eqn:E; [| reflexivity].
    apply Z.eqb_eq in E. congruence.
Qed.

Lemma AuthorForm_construct_id key d object :
  AuthorForm.construct key d = Some object ->
  Author.id object = key /\
  clean_text 100 (Author.first_name object) /\
  clean_text 100 (Author.last_name object).
Proof.
  unfold AuthorForm.construct.
  destruct (CharField_clean 100 (AuthorForm.first_name d)) as [f|] eqn:Ef;
    [| discriminate].
  destruct (CharField_clean 100 (AuthorForm.last_name d)) as [l|] eqn:El;
    [| discriminate].
  destruct (DateField_clean (AuthorForm.date_of_birth d)); [| discriminate].
  destruct (DateField_clean (AuthorForm.date_of_death d)); [| discriminate].
  intros [= <-]. simpl. split; [reflexivity |].
  split; eapply CharField_clean_text; eassumption.
Qed.

(** A response that is not a redirect, contrary to [E]. *)
Ltac no_redirect E :=
  simpl in E; unfold handle_no_permission in E;
  try match type of E with
      | context [is_authenticated ?u] => destruct (is_authenticated u)
      end;
  discriminate E.

(** X8. [AuthorUpdate] writes at most the author with the key it was
    called for: every author keeps its key and place, the others are as
    before and so are the other tables.  After the redirect the detail page
    of that key shows what the form built. *)
Theorem AuthorUpdate_changes_one_row `{URLconf} (pk : Z)
    (request : HttpRequest AuthorForm.data) (db : Catalog) :
  let response := fst (AuthorUpdate.post pk request db) in
  let db' := snd (AuthorUpdate.post pk request db) in
  Genre_objects db' = Genre_objects db /\
  Book_objects db' = Book_objects db /\
  Book_genre db' = Book_genre db /\
  BookInstance_objects db' = BookInstance_objects db /\
  Forall2 (fun a a' => Author.id a' = Author.id a /\
                       (Author.id a <> pk -> a' = a))
    (Author_objects db) (Author_objects db') /\
  (forall url, response = HttpResponseRedirect url ->
     exists object,
       AuthorForm.construct pk (POST request) = Some object /\
       AuthorDetailView.get pk db'
       = render "catalog/author_detail.html" object).
Proof.
  cbv zeta.
  assert (Forall2 (fun a a' => Author.id a' = Author.id a /\
                               (Author.id a <> pk -> a' = a))
            (Author_objects db) (Author_objects db)) as Hsame
    by (apply Forall2_same; tauto).
  unfold AuthorUpdate.post, PermissionRequiredMixin.
  destruct (has_perm (user request) AuthorUpdate.permission_required);
    [| simpl; repeat (split; [reflexivity |]); (split; [exact Hsame |]);
       intros url E; no_redirect E].
  unfold with_object_or_404.
  destruct (get Author.id pk (Author_objects db)) as [obj | |] eqn:Eget;
    try (simpl; repeat (split; [reflexivity |]); (split; [exact Hsame |]);
         intros url E; no_redirect E).
  destruct (get_Found_In _ _ _ _ Eget) as [Hin Hobj]. rewrite Hobj.
  destruct (AuthorForm.construct pk (POST request)) as [object|] eqn:Ec;
    [| simpl; repeat (split; [reflexivity |]); (split; [exact Hsame |]);
       intros url E; no_redirect E].
  destruct (AuthorForm_construct_id _ _ _ Ec) as [Hid _].
  assert (save Author.id object (Author_objects db)
          = map (fun r => if Author.id r =? pk then object else r)
              (Author_objects db)) as Hsave
    by (apply (save_Found _ _ _ obj); [exact Eget | exact Hid]).
  assert (Forall2 (fun a a' => Author.id a' = Author.id a /\
                               (Author.id a <> pk -> a' = a))
            (Author_objects db)
            (save Author.id object (Author_objects db))) as Hframe.
  { rewrite Hsave. apply Forall2_map_r. intros r _.
    destruct (Author.id r =? pk) eqn:E.
    - apply Z.eqb_eq in E. split; [congruence | intros Hne; contradiction].
    - split; [reflexivity | reflexivity]. }
  assert (AuthorDetailView.get pk
            (set_Author_objects (save Author.id object (Author_objects db)) db)
          = render "catalog/author_detail.html" object) as Hdetail.
  { unfold AuthorDetailView.get. simpl. rewrite Hsave.
    rewrite (get_after_update Author.id pk _ obj object Eget Hid).
    reflexivity. }
  destruct (Author.get_absolute_url object); simpl;
    repeat (split; [reflexivity |]); (split; [exact Hframe |]).
  - intros url _. exists object. split; [reflexivity | exact Hdetail].
  - discriminate.
Qed.


Lemma BookForm_save_create cleaned db :
  Book_objects (snd (BookForm.save None cleaned db))
  = Book_objects db ++ [fst (BookForm.save None cleaned db)] /\
  Book.id (fst (BookForm.save None cleaned db))
  = next_pk Book.id (Book_objects db).
Proof. split; reflexivity. Qed.

(** X10. [BookCreate] saves the book before it builds the redirect, and
    builds it from [Book.get_absolute_url]: for a valid form of a permitted
    user the book is stored and its detail page shows it, whether or not
    the URL can be built, and the response is the same whatever book was
    submitted. *)
Theorem BookCreate_stores_before_redirect `{URLconf}
    (request : HttpRequest BookForm.data) (db : Catalog)
    (cleaned : BookForm.data) :
  has_perm (user request) "user.is_staff" = true ->
  BookForm.clean None (POST request) db = Some cleaned ->
  let object := fst (BookForm.save None cleaned db) in
  let db' := snd (BookCreate.post request db) in
  db' = snd (BookForm.save None cleaned db) /\
  BookDetailView.get (Book.id object) db'
  = render "catalog/book_detail.html" object /\
  fst (BookCreate.post request db)
  = match reverse "book-detail" ["<built-in function id>"] with
    | Some url => HttpResponseRedirect url
    | None => HttpResponseServerError NoReverseMatch
    end.
Proof.
  intros Hp Hc. cbv zeta.
  assert (snd (BookCreate.post request db) = snd (BookForm.save None cleaned db)
          /\ fst (BookCreate.post request db)
             = match reverse "book-detail" ["<built-in function id>"] with
               | Some url => HttpResponseRedirect url
               | None => HttpResponseServerError NoReverseMatch
               end) as [Hdb Hresp].
  { unfold BookCreate.post, PermissionRequiredMixin,
      BookCreate.permission_required.
    rewrite Hp, Hc.
    destruct (BookForm.save None cleaned db) as [object db'].
    unfold Book.get_absolute_url, str_builtin_id.
    destruct (reverse "book-detail" ["<built-in function id>"]);
      split; reflexivity. }
  split; [exact Hdb |]. split; [| exact Hresp].
  rewrite Hdb. unfold BookDetailView.get.
  destruct (BookForm_save_create cleaned db) as [Htable Hid].
  rewrite Htable.
  rewrite (get_appended Book.id (Book_objects db)
             (fst (BookForm.save None cleaned db))).
  - reflexivity.
  - intros r Hr. rewrite Hid.
    pose proof (next_pk_above Book.id _ _ Hr). lia.
Qed.

(** ** Renewal and overdue copies *)

Lemma renew_redirect_inv `{URLconf} `{Forms} today pk request db url :
  fst (renew_book_librarian today pk request db) = HttpResponseRedirect url ->
  exists obj d,
    get BookInstance.id pk (BookInstance_objects db) = Found obj /\
    RenewBookForm_clean today (POST request) = Some d /\
    snd (renew_book_librarian today pk request db)
    = BookInstance_save (BookInstance.set_due_back d obj) db.
Proof.
  unfold renew_book_librarian, login_required, permission_required.
  destruct (is_authenticated (user request)); [| discriminate].
  destruct (has_perm (user request) "catalog.can_mark_returned");
    [| discriminate].
  unfold renew_book_librarian_body, with_object_or_404.
  destruct (get BookInstance.id pk (BookInstance_objects db)) as [obj | |];
    try discriminate.
  destruct (String.eqb (method request) "POST").
  - destruct (RenewBookForm_clean today (POST request)) as [d|];
      [| discriminate].
    destruct (reverse "borrowed-books" []); [| discriminate].
    intros _. exists obj, d. repeat split.
  - destruct (datetime.add today (datetime.timedelta_weeks 3)); discriminate.
Qed.

(** X11. After a renewal that ends in the redirect, the copy is overdue on
    exactly the days after the cleaned date, so it is not overdue on the
    day of the renewal if the form accepts no date in the past; a renewal
    to no date leaves a copy that is never overdue. *)
Theorem renewed_copy_overdue_after_new_date `{URLconf} `{Forms}
    (today : date) (pk : Z) (request : HttpRequest QueryDict) (db : Catalog)
    (url : string) (d : option date) :
  fst (renew_book_librarian today pk request db) = HttpResponseRedirect url ->
  RenewBookForm_clean today (POST request) = Some d ->
  forall r day,
    In r (BookInstance_objects (snd (renew_book_librarian today pk request db))) ->
    BookInstance.id r = pk ->
    BookInstance.is_overdue day r
    = match d with
      | Some due => due <? day
      | None => false
      end.
Proof.
  intros Hr Hc r day Hin Hk.
  destruct (renew_redirect_inv _ _ _ _ _ Hr) as [obj [d' [Eget [Hc' Hdb]]]].
  assert (d' = d) as -> by congruence.
  destruct (get_Found_In _ _ _ _ Eget) as [_ Hobj].
  rewrite Hdb in Hin. unfold BookInstance_save in Hin. simpl in Hin.
  rewrite (save_Found BookInstance.id pk _ obj) in Hin by assumption.
  apply in_map_iff in Hin. destruct Hin as [r0 [E Hr0]].
  destruct (BookInstance.id r0 =? pk) eqn:Ek.
  - subst r. unfold BookInstance.is_overdue, datetime.gt. simpl.
    destruct d; reflexivity.
  - subst r. apply Z.eqb_neq in Ek. contradiction.
Qed.

(** ** Pages *)






(** ** What each view writes *)

Lemma renew_effect `{URLconf} `{Forms} today pk request db :
  snd (renew_book_librarian today pk request db) = db \/
  exists obj d,
    get BookInstance.id pk (BookInstance_objects db) = Found obj /\
    snd (renew_book_librarian today pk request db)
    = set_BookInstance_objects
        (map (fun r => if BookInstance.id r =? pk
                       then BookInstance.set_due_back d obj else r)
           (BookInstance_objects db)) db.
Proof.
  unfold renew_book_librarian, login_required, permission_required.
  destruct (is_authenticated (user request)); [| left; reflexivity].
  destruct (has_perm (user request) "catalog.can_mark_returned");
    [| left; reflexivity].
  unfold renew_book_librarian_body, with_object_or_404.
  destruct (get BookInstance.id pk (BookInstance_objects db))
    as [obj | |] eqn:Eget; try (left; reflexivity).
  destruct (String.eqb (method request) "POST").
  - destruct (RenewBookForm_clean today (POST request)) as [d|];
      [| left; reflexivity].
    right. exists obj, d. split; [reflexivity |].
    destruct (get_Found_In _ _ _ _ Eget) as [_ Hobj].
    assert (BookInstance_save (BookInstance.set_due_back d obj) db
            = set_BookInstance_objects
                (map (fun r => if BookInstance.id r =? pk
                               then BookInstance.set_due_back d obj else r)
                   (BookInstance_objects db)) db) as E.
    { unfold BookInstance_save. f_equal.
      apply (save_Found _ _ _ obj); [exact Eget | exact Hobj]. }
    destruct (reverse "borrowed-books" []); simpl; exact E.
  - left. destruct (datetime.add today (datetime.timedelta_weeks 3));
      reflexivity.
Qed.

Lemma AuthorCreate_effect `{URLconf} request db :
  snd (AuthorCreate.post request db) = db \/
  exists object,
    AuthorForm.construct (next_pk Author.id (Author_objects db))
      (POST request) = Some object /\
    snd (AuthorCreate.post request db)
    = set_Author_objects (Author_objects db ++ [object]) db.
Proof.
  unfold AuthorCreate.post, PermissionRequiredMixin.
  destruct (has_perm (user request) AuthorCreate.permission_required);
    [| left; reflexivity].
  destruct (AuthorForm.construct (next_pk Author.id (Author_objects db))
              (POST request)) as [object|]; [| left; reflexivity].
  right. exists object. split; [reflexivity |].
  destruct (Author.get_absolute_url object); reflexivity.
Qed.

Lemma AuthorUpdate_effect `{URLconf} pk request db :
  snd (AuthorUpdate.post pk request db) = db \/
  exists obj object,
    get Author.id pk (Author_objects db) = Found obj /\
    AuthorForm.construct pk (POST request) = Some object /\
    snd (AuthorUpdate.post pk request db)
    = set_Author_objects
        (map (fun r => if Author.id r =? pk then object else r)
           (Author_objects db)) db.
Proof.
  unfold AuthorUpdate.post, PermissionRequiredMixin.
  destruct (has_perm (user request) AuthorUpdate.permission_required);
    [| left; reflexivity].
  unfold with_object_or_404.
  destruct (get Author.id pk (Author_objects db)) as [obj | |] eqn:Eget;
    try (left; reflexivity).
  destruct (get_Found_In _ _ _ _ Eget) as [_ Hobj]. rewrite Hobj.
  destruct (AuthorForm.construct pk (POST request)) as [object|] eqn:Ec;
    [| left; reflexivity].
  right. exists obj, object. split; [reflexivity |]. split; [reflexivity |].
  destruct (AuthorForm_construct_id _ _ _ Ec) as [Hid _].
  rewrite <- (save_Found Author.id pk _ obj object Eget Hid).
  destruct (Author.get_absolute_url object); reflexivity.
Qed.

Lemma AuthorDelete_effect `{URLconf} pk request db :
  snd (AuthorDelete.post pk request db) = db \/
  exists obj,
    Author_delete obj db = inr (snd (AuthorDelete.post pk request db)).
Proof.
  unfold AuthorDelete.post, PermissionRequiredMixin.
  destruct (has_perm (user request) AuthorDelete.permission_required);
    [| left; reflexivity].
  unfold with_object_or_404.
  destruct (get Author.id pk (Author_objects db)) as [obj | |];
    try (left; reflexivity).
  destruct (reverse "authors" []); [| left; reflexivity].
  destruct (Author_delete obj db) as [e | db'] eqn:Ed; [left; reflexivity |].
  right. exists obj. exact Ed.
Qed.

Lemma BookCreate_effect `{URLconf} request db :
  snd (BookCreate.post request db) = db \/
  exists cleaned,
    BookForm.clean None (POST request) db = Some cleaned /\
    snd (BookCreate.post request db) = snd (BookForm.save None cleaned db).
Proof.
  unfold BookCreate.post, PermissionRequiredMixin.
  destruct (has_perm (user request) BookCreate.permission_required);
    [| left; reflexivity].
  destruct (BookForm.clean None (POST request) db) as [cleaned|];
    [| left; reflexivity].
  right. exists cleaned. split; [reflexivity |].
  destruct (BookForm.save None cleaned db) as [object db'].
  destruct (Book.get_absolute_url object); reflexivity.
Qed.

Lemma BookInstanceCreate_effect `{URLconf} users request db :
  snd (BookInstanceCreate.post users request db) = db \/
  exists object,
    BookInstanceForm.construct users (POST request) db = Some object /\
    snd (BookInstanceCreate.post users request db)
    = set_BookInstance_objects (BookInstance_objects db ++ [object]) db.
Proof.
  unfold BookInstanceCreate.post, PermissionRequiredMixin.
  destruct (has_perm (user request) BookInstanceCreate.permission_required);
    [| left; reflexivity].
  destruct (BookInstanceForm.construct users (POST request) db)
    as [object|]; [| left; reflexivity].
  right. exists object. split; [reflexivity |].
  destruct (reverse "book-detail" _); reflexivity.
Qed.

Lemma GenreCreate_effect `{URLconf} request db :
  snd (GenreCreate.post request db) = db \/
  exists name,
    CharField_clean 200 (POST request) = Some name /\
    snd (GenreCreate.post request db)
    = set_Genre_objects
        (Genre_objects db
         ++ [ {| Genre.id := next_pk Genre.id (Genre_objects db);
                 Genre.name := name |} ]) db.
Proof.
  unfold GenreCreate.post, PermissionRequiredMixin.
  destruct (has_perm (user request) GenreCreate.permission_required);
    [| left; reflexivity].
  destruct (CharField_clean 200 (POST request)) as [name|];
    [| left; reflexivity].
  right. exists name. split; [reflexivity |].
  destruct (Genre.get_absolute_url _); reflexivity.
Qed.

(** ** Keys and references are kept *)

Lemma In_map_snoc {A B} (f : A -> B) (l : list A) (o : A) (k : B) :
  In k (map f l) -> In k (map f (l ++ [o])).
Proof. intros Hk. rewrite map_app. apply in_or_app. left. exact Hk. Qed.

Lemma map_update_keys {M} (pk : M -> Z) key obj (l : list M) :
  pk obj = key ->
  map pk (map (fun r => if pk r =? key then obj else r) l) = map pk l.
Proof.
  intros Hk. rewrite map_map. apply map_ext. intros r.
  destruct (pk r =? key) eqn:E; [| reflexivity].
  apply Z.eqb_eq in E. congruence.
Qed.

Lemma In_map_delete_pk {M} (pk : M -> Z) key k (table : list M) :
  In k (map pk table) -> k <> key -> In k (map pk (delete_pk pk key table)).
Proof.
  intros Hin Hne. apply in_map_iff in Hin. destruct Hin as [r [E Hr]].
  apply in_map_iff. exists r. split; [exact E |].
  apply delete_pk_In. split; [exact Hr | congruence].
Qed.

Lemma exists_key {M} (pk : M -> Z) key (table : list M) :
  existsb (fun r => pk r =? key) table = true <-> In key (map pk table).
Proof.
  rewrite existsb_exists, in_map_iff. split.
  - intros [r [Hr E]]. exists r. apply Z.eqb_eq in E. tauto.
  - intros [r [E Hr]]. exists r. rewrite Z.eqb_eq. tauto.
Qed.

Lemma BookForm_clean_refs instance d db cleaned :
  BookForm.clean instance d db = Some cleaned ->
  (exists a, BookForm.author cleaned = Some a /\
             In a (map Author.id (Author_objects db))) /\
  (forall g, In g (BookForm.genre cleaned) ->
             In g (map Genre.id (Genre_objects db))) /\
  clean_text 200 (BookForm.title cleaned) /\
  clean_text 1000 (BookForm.summary cleaned) /\
  clean_text 13 (BookForm.isbn cleaned).
Proof.
  unfold BookForm.clean.
  destruct (CharField_clean 200 (BookForm.title d)) as [t|] eqn:Et;
    [| discriminate].
  destruct (BookForm.clean_author db (BookForm.author d)) as [a|] eqn:Ea;
    [| discriminate].
  destruct (CharField_clean 1000 (BookForm.summary d)) as [s|] eqn:Es;
    [| discriminate].
  destruct (CharField_clean Book.isbn_max_length (BookForm.isbn d))
    as [i|] eqn:Ei; [| discriminate].
  destruct (BookForm.clean_genre db (BookForm.genre d)) as [g|] eqn:Eg;
    [| discriminate].
  destruct (BookForm.isbn_taken instance i db); [discriminate |].
  intros [= <-]. simpl.
  split; [| split; [| split; [| split]]];
    try (eapply CharField_clean_text; eassumption).
  - exists a. split; [reflexivity |].
    unfold BookForm.clean_author in Ea.
    destruct (BookForm.author d) as [k|]; [| discriminate].
    destruct (existsb (fun r => Author.id r =? k) (Author_objects db)) eqn:Ex;
      [| discriminate].
    injection Ea as <-. apply exists_key, Ex.
  - intros x Hx. unfold BookForm.clean_genre in Eg.
    destruct (BookForm.genre d); [discriminate |].
    destruct (forallb _ _); [| discriminate].
    injection Eg as <-. apply in_map_iff in Hx.
    destruct Hx as [r [E Hr]]. apply filter_In in Hr.
    apply in_map_iff. exists r. tauto.
Qed.

Lemma BookInstanceForm_construct_facts users d db o :
  BookInstanceForm.construct users d db = Some o ->
  ~ In (BookInstance.id o) (map BookInstance.id (BookInstance_objects db)) /\
  (exists key, BookInstance.book o = Some key /\
               In key (map Book.id (Book_objects db))) /\
  clean_text 200 (BookInstance.imprint o) /\
  (BookInstance.status o = "" \/
   In (BookInstance.status o) ["m"; "o"; "a"; "r"]) /\
  In (BookInstance.language o) ["en"; "ru"; "de"; "fr"] /\
  0 <= BookInstance.id o < 2 ^ 128.
Proof.
  unfold BookInstanceForm.construct.
  destruct (BookInstanceForm.clean_id db (BookInstanceForm.id d))
    as [u|] eqn:Eu; [| discriminate].
  destruct (BookInstanceForm.clean_book db (BookInstanceForm.book d))
    as [b|] eqn:Eb; [| discriminate].
  destruct (CharField_clean 200 (BookInstanceForm.imprint d))
    as [i|] eqn:Ei; [| discriminate].
  destruct (DateField_clean (BookInstanceForm.due_back d)); [| discriminate].
  destruct (BookInstanceForm.clean_borrower users (BookInstanceForm.borrower d));
    [| discriminate].
  destruct (BookInstanceForm.clean_status (BookInstanceForm.status d))
    as [st|] eqn:Est; [| discriminate].
  destruct (BookInstanceForm.clean_language (BookInstanceForm.language d))
    as [lang|] eqn:El; [| discriminate].
  intros [= <-]. simpl.
  unfold BookInstanceForm.clean_id in Eu.
  destruct (BookInstanceForm.id d) as [x|]; [| discriminate].
  destruct ((0 <=? x) && (x <? 2 ^ 128)) eqn:Er; simpl in Eu; [| discriminate].
  destruct (existsb (fun r => BookInstance.id r =? x) (BookInstance_objects db))
    eqn:Ex; simpl in Eu; [discriminate |].
  injection Eu as <-.
  split; [| split; [| split; [| split; [| split]]]].
  - intros Hin. apply exists_key in Hin. congruence.
  - exists b. split; [reflexivity |].
    unfold BookInstanceForm.clean_book in Eb.
    destruct (BookInstanceForm.book d) as [k|]; [| discriminate].
    destruct (existsb (fun r => Book.id r =? k) (Book_objects db)) eqn:Ek;
      [| discriminate].
    injection Eb as <-. apply exists_key, Ek.
  - eapply CharField_clean_text; eassumption.
  - unfold BookInstanceForm.clean_status in Est.
    destruct (BookInstanceForm.status d) as [v|].
    + destruct (String.eqb v "") eqn:Ev; cbn [orb] in Est.
      * injection Est as <-. left. apply String.eqb_eq, Ev.
      * destruct (BookInstanceForm.is_choice BookInstance.LOAN_STATUS v)
          eqn:Ec; [| discriminate].
        injection Est as <-. right.
        unfold BookInstanceForm.is_choice in Ec. apply existsb_exists in Ec.
        destruct Ec as [c [Hc E]]. apply String.eqb_eq in E. subst v.
        unfold BookInstance.LOAN_STATUS in Hc. simpl in Hc.
        destruct Hc as [<- | [<- | [<- | [<- | []]]]]; simpl; tauto.
    + injection Est as <-. right. simpl. tauto.
  - unfold BookInstanceForm.clean_language in El.
    destruct (BookInstanceForm.is_choice BookInstance.LANGUAGES
                (BookInstanceForm.language d)) eqn:Ec; [| discriminate].
    injection El as <-.
    unfold BookInstanceForm.is_choice in Ec. apply existsb_exists in Ec.
    destruct Ec as [c [Hc E]]. apply String.eqb_eq in E. rewrite <- E.
    unfold BookInstance.LANGUAGES in Hc. simpl in Hc.
    destruct Hc as [<- | [<- | [<- | [<- | []]]]]; simpl; tauto.
  - apply andb_true_iff in Er. destruct Er as [E0 E1].
    apply Z.leb_le in E0. apply Z.ltb_lt in E1. lia.
Qed.

Lemma NoDup_keys_snoc {M} (pk : M -> Z) (table : list M) o :
  NoDup (map pk table) -> ~ In (pk o) (map pk table) ->
  NoDup (map pk (table ++ [o])).
Proof. intros Hnd Hnew. rewrite map_app. apply NoDup_snoc; assumption. Qed.

Lemma next_pk_new {M} (pk : M -> Z) (table : list M) :
  ~ In (next_pk pk table) (map pk table).
Proof.
  intros Hin. apply in_map_iff in Hin. destruct Hin as [r [E Hr]].
  pose proof (next_pk_above pk table r Hr). lia.
Qed.

Lemma integrity_instances_map db (f : BookInstance.t -> BookInstance.t) :
  integrity db ->
  (forall r, In r (BookInstance_objects db) ->
     BookInstance.id (f r) = BookInstance.id r /\
     BookInstance.book (f r) = BookInstance.book r) ->
  integrity (set_BookInstance_objects (map f (BookInstance_objects db)) db).
Proof.
  intros [G A B I BA IB BG] Hf. constructor; simpl; try assumption.
  - rewrite map_map.
    rewrite (map_ext_in (fun x => BookInstance.id (f x)) BookInstance.id);
      [exact I | intros r Hr; apply Hf, Hr].
  - intros i Hi. apply in_map_iff in Hi. destruct Hi as [r [<- Hr]].
    rewrite (proj2 (Hf r Hr)). exact (IB r Hr).
Qed.

Lemma integrity_Author_snoc db o :
  integrity db ->
  ~ In (Author.id o) (map Author.id (Author_objects db)) ->
  integrity (set_Author_objects (Author_objects db ++ [o]) db).
Proof.
  intros [G A B I BA IB BG] Hnew. constructor; simpl; try assumption.
  - apply NoDup_keys_snoc; assumption.
  - intros b a Hb Ha. apply In_map_snoc. exact (BA b a Hb Ha).
Qed.

Lemma integrity_Author_update db pk o :
  integrity db -> Author.id o = pk ->
  integrity
    (set_Author_objects
       (map (fun r => if Author.id r =? pk then o else r) (Author_objects db))
       db).
Proof.
  intros [G A B I BA IB BG] Hid. constructor; simpl; try assumption.
  - rewrite map_update_keys by exact Hid. exact A.
  - intros b a Hb Ha. rewrite map_update_keys by exact Hid.
    exact (BA b a Hb Ha).
Qed.

Lemma integrity_Author_delete db obj db' :
  integrity db -> Author_delete obj db = inr db' -> integrity db'.
Proof.
  intros [G A B I BA IB BG]. unfold Author_delete, Book.author_on_delete.
  simpl. intros [= <-].
  assert (map Book.id
            (map (fun r => if references (Book.author r) (Author.id obj)
                           then Book.set_author None r else r)
               (Book_objects db)) = map Book.id (Book_objects db)) as Hids.
  { rewrite map_map. apply map_ext. intros r.
    destruct (references (Book.author r) (Author.id obj)); reflexivity. }
  constructor; simpl; try assumption.
  - apply NoDup_map_filter, A.
  - rewrite Hids. exact B.
  - intros b a Hb Ha. apply in_map_iff in Hb. destruct Hb as [b0 [E Hb0]].
    destruct (references (Book.author b0) (Author.id obj)) eqn:Er; subst b.
    + simpl in Ha. discriminate.
    + apply In_map_delete_pk; [exact (BA b0 a Hb0 Ha) |].
      intros ->. rewrite Ha in Er. simpl in Er. rewrite Z.eqb_refl in Er.
      discriminate.
  - rewrite Hids. exact IB.
  - rewrite Hids. exact BG.
Qed.

Lemma integrity_links db key (genres : list Z) books :
  integrity db ->
  In key (map Book.id books) ->
  (forall k, In k (map Book.id (Book_objects db)) -> In k (map Book.id books)) ->
  (forall g, In g genres -> In g (map Genre.id (Genre_objects db))) ->
  forall row,
    In row (filter (fun row : Z * Z => negb (fst row =? key)) (Book_genre db)
            ++ map (fun g => (key, g)) genres) ->
    In (fst row) (map Book.id books) /\
    In (snd row) (map Genre.id (Genre_objects db)).
Proof.
  intros Hint Hkey Hsub Hg row Hrow. apply in_app_or in Hrow.
  destruct Hrow as [Hrow | Hrow].
  - apply filter_In in Hrow. destruct Hrow as [Hrow _].
    destruct (Book_genre_exists db Hint row Hrow) as [Hb Hgen].
    split; [apply Hsub, Hb | exact Hgen].
  - apply in_map_iff in Hrow. destruct Hrow as [g [<- Hin]]. simpl.
    split; [exact Hkey | apply Hg, Hin].
Qed.

Lemma integrity_Book_create db d cleaned :
  integrity db ->
  BookForm.clean None d db = Some cleaned ->
  integrity (snd (BookForm.save None cleaned db)).
Proof.
  intros Hint Hc. pose proof Hint as [G A B I BA IB BG].
  destruct (BookForm_clean_refs _ _ _ _ Hc) as [[a [Ha Hain]] [Hg _]].
  constructor; simpl; try assumption.
  - apply NoDup_keys_snoc; [exact B | apply next_pk_new].
  - intros b x Hb Hx. apply in_app_or in Hb. destruct Hb as [Hb | [<- | []]].
    + exact (BA b x Hb Hx).
    + simpl in Hx. congruence.
  - intros i Hi. destruct (IB i Hi) as [key [Hk Hin]].
    exists key. split; [exact Hk | apply In_map_snoc, Hin].
  - apply (integrity_links db _ _ _ Hint).
    + rewrite map_app. apply in_or_app. right. left. reflexivity.
    + intros k Hk. apply In_map_snoc, Hk.
    + exact Hg.
Qed.

Lemma integrity_Book_change db key self d cleaned :
  integrity db ->
  get Book.id key (Book_objects db) = Found self ->
  BookForm.clean (Some self) d db = Some cleaned ->
  integrity (snd (BookForm.save (Some self) cleaned db)).
Proof.
  intros Hint Hget Hc. pose proof Hint as [G A B I BA IB BG].
  destruct (BookForm_clean_refs _ _ _ _ Hc) as [[a [Ha Hain]] [Hg _]].
  destruct (get_Found_In _ _ _ _ Hget) as [Hin Hkey].
  assert (forall o, Book.id o = Book.id self ->
            save Book.id o (Book_objects db)
            = map (fun r => if Book.id r =? Book.id self then o else r)
                (Book_objects db)) as Hsave.
  { intros o Ho. apply (save_Found _ _ _ self); [| exact Ho].
    rewrite Hkey. exact Hget. }
  constructor; simpl; try assumption; rewrite Hsave by reflexivity.
  - rewrite map_update_keys by reflexivity. exact B.
  - intros b x Hb Hx. apply in_map_iff in Hb. destruct Hb as [b0 [E Hb0]].
    destruct (Book.id b0 =? Book.id self); subst b.
    + simpl in Hx. congruence.
    + exact (BA b0 x Hb0 Hx).
  - rewrite map_update_keys by reflexivity. exact IB.
  - rewrite map_update_keys by reflexivity.
    apply (integrity_links db _ _ _ Hint).
    + apply in_map, Hin.
    + trivial.
    + exact Hg.
Qed.

Lemma integrity_BookInstance_snoc db users d o :
  integrity db ->
  BookInstanceForm.construct users d db = Some o ->
  integrity (set_BookInstance_objects (BookInstance_objects db ++ [o]) db).
Proof.
  intros [G A B I BA IB BG] Hc.
  destruct (BookInstanceForm_construct_facts _ _ _ _ Hc) as [Hnew [Hbook _]].
  constructor; simpl; try assumption.
  - apply NoDup_keys_snoc; assumption.
  - intros i Hi. apply in_app_or in Hi. destruct Hi as [Hi | [<- | []]].
    + exact (IB i Hi).
    + exact Hbook.
Qed.

Lemma integrity_Genre_snoc db name :
  integrity db ->
  integrity
    (set_Genre_objects
       (Genre_objects db
        ++ [ {| Genre.id := next_pk Genre.id (Genre_objects db);
                Genre.name := name |} ]) db).
Proof.
  intros [G A B I BA IB BG]. constructor; simpl; try assumption.
  - apply NoDup_keys_snoc; [exact G | apply next_pk_new].
  - intros row Hrow. destruct (BG row Hrow) as [Hb Hg].
    split; [exact Hb | apply In_map_snoc, Hg].
Qed.

Lemma integrity_Book_delete db self db' :
  integrity db -> Book_delete self db = inr db' -> integrity db'.
Proof.
  intros [G A B I BA IB BG]. unfold Book_delete, BookInstance.book_on_delete.
  unfold collect at 1.
  destruct (existsb
              (fun i => references (BookInstance.book i) (Book.id self))
              (BookInstance_objects db)) eqn:Ex; [discriminate |].
  simpl. intros [= <-]. constructor; simpl; try assumption.
  - apply NoDup_map_filter, B.
  - intros b a Hb Ha. apply delete_pk_In in Hb. exact (BA b a (proj1 Hb) Ha).
  - intros i Hi. destruct (IB i Hi) as [key [Hk Hin]].
    exists key. split; [exact Hk |].
    apply In_map_delete_pk; [exact Hin |]. intros ->.
    assert (existsb
              (fun i => references (BookInstance.book i) (Book.id self))
              (BookInstance_objects db) = true) as Ex'; [| congruence].
    apply existsb_exists. exists i. split; [exact Hi |].
    apply references_Some, Hk.
  - intros row Hrow. apply filter_In in Hrow. destruct Hrow as [Hrow Hne].
    destruct (BG row Hrow) as [Hb Hg]. split; [| exact Hg].
    apply In_map_delete_pk; [exact Hb |].
    apply negb_true_iff, Z.eqb_neq in Hne. exact Hne.
Qed.

(** X13. Every catalog the site can produce has unique keys in every
    table, an existing author behind every non-null [Book.author], an
    existing book behind every [BookInstance], which always has one, and
    existing books and genres behind every link of the many-to-many
    table. *)
Theorem served_integrity `{URLconf} `{Forms} (db : Catalog) :
  served db -> integrity db.
Proof.
  induction 1 as [| today pk request db _ IH | request db _ IH
                  | pk request db _ IH | pk request db _ IH
                  | request db _ IH | users request db _ IH
                  | request db _ IH | db key self d cleaned _ IH Hg Hc
                  | db self db' _ IH Hd].
  - constructor; simpl; try constructor; intros; contradiction.
  - destruct (renew_effect today pk request db) as [-> | [obj [d [Eget ->]]]];
      [exact IH |].
    apply integrity_instances_map; [exact IH |].
    intros r Hr. destruct (BookInstance.id r =? pk) eqn:E;
      [| split; reflexivity].
    apply Z.eqb_eq in E.
    rewrite (get_Found_unique _ _ _ _ _ Eget Hr E). split; reflexivity.
  - destruct (AuthorCreate_effect request db) as [-> | [o [Ec ->]]];
      [exact IH |].
    apply integrity_Author_snoc; [exact IH |].
    rewrite (proj1 (AuthorForm_construct_id _ _ _ Ec)). apply next_pk_new.
  - destruct (AuthorUpdate_effect pk request db)
      as [-> | [obj [o [Eget [Ec ->]]]]]; [exact IH |].
    apply integrity_Author_update; [exact IH |].
    exact (proj1 (AuthorForm_construct_id _ _ _ Ec)).
  - destruct (AuthorDelete_effect pk request db) as [-> | [obj Hd]];
      [exact IH |].
    exact (integrity_Author_delete _ _ _ IH Hd).
  - destruct (BookCreate_effect request db) as [-> | [cleaned [Hc ->]]];
      [exact IH |].
    exact (integrity_Book_create _ _ _ IH Hc).
  - destruct (BookInstanceCreate_effect users request db)
      as [-> | [o [Hc ->]]]; [exact IH |].
    exact (integrity_BookInstance_snoc _ _ _ _ IH Hc).
  - destruct (GenreCreate_effect request db) as [-> | [name [Hc ->]]];
      [exact IH |].
    apply integrity_Genre_snoc, IH.
  - exact (integrity_Book_change _ _ _ _ _ IH Hg Hc).
  - exact (integrity_Book_delete _ _ _ IH Hd).
Qed.

(** ** The columns hold what the forms let in *)

Lemma In_snoc {A} (l : list A) o x : In x (l ++ [o]) -> In x l \/ x = o.
Proof.
  intros H. apply in_app_or in H. destruct H as [H | [<- | []]]; auto.
Qed.

Lemma well_formed_Author_delete db obj db' :
  well_formed db -> Author_delete obj db = inr db' -> well_formed db'.
Proof.
  intros [G A B I]. unfold Author_delete, Book.author_on_delete. simpl.
  intros [= <-]. constructor; simpl; try assumption.
  - intros a Ha. apply delete_pk_In in Ha. apply A, Ha.
  - intros b Hb. apply in_map_iff in Hb. destruct Hb as [b0 [<- Hb0]].
    destruct (references (Book.author b0) (Author.id obj));
      exact (B b0 Hb0).
Qed.

Lemma well_formed_Book_save instance d cleaned db :
  well_formed db ->
  BookForm.clean instance d db = Some cleaned ->
  well_formed (snd (BookForm.save instance cleaned db)).
Proof.
  intros [G A B I] Hc.
  destruct (BookForm_clean_refs _ _ _ _ Hc) as [_ [_ Htexts]].
  constructor; simpl; try assumption.
  intros b Hb. destruct instance as [self|].
  - unfold save in Hb.
    destruct (existsb _ (Book_objects db)).
    + apply in_map_iff in Hb. destruct Hb as [b0 [E Hb0]].
      destruct (Book.id b0 =? _); subst b; [exact Htexts | apply B, Hb0].
    + apply In_snoc in Hb. destruct Hb as [Hb | ->];
        [apply B, Hb | exact Htexts].
  - apply In_snoc in Hb. destruct Hb as [Hb | ->];
      [apply B, Hb | exact Htexts].
Qed.

Lemma well_formed_Book_delete db self db' :
  well_formed db -> Book_delete self db = inr db' -> well_formed db'.
Proof.
  intros [G A B I]. unfold Book_delete.
  destruct (collect BookInstance.book_on_delete _ _ _) as [e | instances]
    eqn:Ecol; [discriminate |].
  simpl. intros [= <-]. constructor; simpl; try assumption.
  - intros b Hb. apply delete_pk_In in Hb. apply B, Hb.
  - unfold BookInstance.book_on_delete, collect in Ecol.
    destruct (existsb _ (BookInstance_objects db)); [discriminate |].
    injection Ecol as <-. exact I.
Qed.

(** X14. In every catalog the site can produce the text columns hold what
    the forms clean: no white space around, not empty, within
    [max_length]; the status of a copy is empty or one of ['m'], ['o'],
    ['a'], ['r'], its language one of the four codes, its key a 128-bit
    number. *)
Theorem served_well_formed `{URLconf} `{Forms} (db : Catalog) :
  served db -> well_formed db.
Proof.
  induction 1 as [| today pk request db _ IH | request db _ IH
                  | pk request db _ IH | pk request db _ IH
                  | request db _ IH | users request db _ IH
                  | request db _ IH | db key self d cleaned _ IH Hg Hc
                  | db self db' _ IH Hd].
  - constructor; simpl; intros; contradiction.
  - destruct (renew_effect today pk request db) as [-> | [obj [d [Eget ->]]]];
      [exact IH |].
    destruct IH as [G A B I]. constructor; simpl; try assumption.
    intros i Hi. apply in_map_iff in Hi. destruct Hi as [r [<- Hr]].
    destruct (BookInstance.id r =? pk); [| apply I, Hr].
    destruct (get_Found_In _ _ _ _ Eget) as [Hobj _].
    exact (I obj Hobj).
  - destruct (AuthorCreate_effect request db) as [-> | [o [Ec ->]]];
      [exact IH |].
    destruct IH as [G A B I]. constructor; simpl; try assumption.
    intros a Ha. apply In_snoc in Ha. destruct Ha as [Ha | ->];
      [apply A, Ha | exact (proj2 (AuthorForm_construct_id _ _ _ Ec))].
  - destruct (AuthorUpdate_effect pk request db)
      as [-> | [obj [o [Eget [Ec ->]]]]]; [exact IH |].
    destruct IH as [G A B I]. constructor; simpl; try assumption.
    intros a Ha. apply in_map_iff in Ha. destruct Ha as [r [<- Hr]].
    destruct (Author.id r =? pk);
      [exact (proj2 (AuthorForm_construct_id _ _ _ Ec)) | apply A, Hr].
  - destruct (AuthorDelete_effect pk request db) as [-> | [obj Hd]];
      [exact IH |].
    exact (well_formed_Author_delete _ _ _ IH Hd).
  - destruct (BookCreate_effect request db) as [-> | [cleaned [Hc ->]]];
      [exact IH |].
    exact (well_formed_Book_save _ _ _ _ IH Hc).
  - destruct (BookInstanceCreate_effect users request db)
      as [-> | [o [Hc ->]]]; [exact IH |].
    destruct (BookInstanceForm_construct_facts _ _ _ _ Hc) as [_ [_ Hf]].
    destruct IH as [G A B I]. constructor; simpl; try assumption.
    intros i Hi. apply In_snoc in Hi. destruct Hi as [Hi | ->];
      [apply I, Hi | exact Hf].
  - destruct (GenreCreate_effect request db) as [-> | [name [Hc ->]]];
      [exact IH |].
    destruct IH as [G A B I]. constructor; simpl; try assumption.
    intros g Hg. apply In_snoc in Hg. destruct Hg as [Hg | ->];
      [apply G, Hg | exact (CharField_clean_text _ _ _ Hc)].
  - exact (well_formed_Book_save _ _ _ _ IH Hc).
  - exact (well_formed_Book_delete _ _ _ IH Hd).
Qed.

(** X15. In a catalog with unique keys and existing references, as every
    catalog the site produces is, [__str__] of a stored copy is its UUID
    and the title of its book, and its [get_absolute_url] is the URL of
    that book: neither raises for a missing book, and two copies of one
    book have the same URL. *)
Theorem BookInstance_methods_in_a_sound_catalog `{URLconf} (db : Catalog)
    (i : BookInstance.t) :
  integrity db -> In i (BookInstance_objects db) ->
  exists b,
    In b (Book_objects db) /\
    BookInstance.book i = Some (Book.id b) /\
    BookInstance_str i db
    = inr (String.append (UUID_str (BookInstance.id i))
             (String.append " (" (String.append (Book.title b) ")"))) /\
    BookInstance_get_absolute_url i db
    = match reverse "book-detail" [str_Z (Book.id b)] with
      | Some url => inr url
      | None => inl NoReverseMatchError
      end /\
    (forall j, In j (BookInstance_objects db) ->
       BookInstance.book j = BookInstance.book i ->
       BookInstance_get_absolute_url j db
       = BookInstance_get_absolute_url i db).
Proof.
  intros Hint Hi.
  destruct (BookInstance_book_exists db Hint i Hi) as [key [Hk Hin]].
  apply in_map_iff in Hin. destruct Hin as [b [Hb Hbin]].
  exists b. split; [exact Hbin |]. split; [congruence |].
  assert (BookInstance_book i db = inr (Some b)) as Hbook.
  { unfold BookInstance_book. rewrite Hk, <- Hb.
    rewrite (get_stored Book.id _ b (Book_keys db Hint) Hbin). reflexivity. }
  unfold BookInstance_str, BookInstance_get_absolute_url.
  rewrite Hbook. split; [reflexivity |]. split; [reflexivity |].
  intros j _ Hj.
  assert (BookInstance_book j db = inr (Some b)) as Hbookj
    by (unfold BookInstance_book in *; rewrite Hj; exact Hbook).
  rewrite Hbookj. reflexivity.
Qed.

(** ** The rest of the site at work *)

Example UUID_str_examples :
  UUID_str 7 = "00000000-0000-0000-0000-000000000007" /\
  UUID_str 24197857203266734864793317670504947440
  = "12345678-9abc-def0-1234-56789abcdef0".
Proof. split; reflexivity. Qed.

Example copy_without_book_has_no_str :
  BookInstance_str
    (BookInstance.set_book None (copy 7 None None "a")) example_catalog
  = inl AttributeError /\
  BookInstance_str (copy 7 None None "a") example_catalog
  = inr "00000000-0000-0000-0000-000000000007 (Emma)".
Proof. split; reflexivity. Qed.

Example three_visits :
  snd (index_times 3 [("other", 5)] example_catalog)
  = [("other", 5); ("num_visits", 3)].
Proof. reflexivity. Qed.

Example stocked_catalog_tables :
  map Genre.name (Genre_objects stocked_catalog) = ["Novel"] /\
  map Book.isbn (Book_objects stocked_catalog) = ["9780141439587"] /\
  Book_genre stocked_catalog = [(1, 1)] /\
  BookInstance_objects stocked_catalog = [copy 7 (Some 739010) (Some 3) "o"].
Proof. repeat split. Qed.

Example author_form_with_a_bad_date :
  @AuthorCreate.post example_urls (post_of (LoggedIn superuser) author_form)
    stocked_catalog
  = (render "catalog/author_form.html" author_form, stocked_catalog).
Proof. reflexivity. Qed.

Lemma stocked_catalog_served :
  @served example_urls example_forms stocked_catalog.
Proof.
  unfold stocked_catalog. apply served_BookInstanceCreate.
  unfold stocked_3. apply served_BookCreate.
  unfold stocked_2. apply served_AuthorCreate.
  unfold stocked_1. apply served_GenreCreate.
  apply served_empty.
Qed.

Lemma example_catalog_integrity : integrity example_catalog.
Proof.
  constructor; simpl.
  - repeat constructor. simpl. tauto.
  - repeat constructor. simpl. tauto.
  - repeat constructor. simpl. tauto.
  - repeat (constructor; [simpl; intuition discriminate |]). constructor.
  - intros b a [<- | []] [= <-]. left. reflexivity.
  - intros i Hi. exists 1. split; [| left; reflexivity].
    destruct Hi as [<- | [<- | [<- | [<- | []]]]]; reflexivity.
  - intros row [<- | []]. simpl. tauto.
Qed.

(** X5, on the example catalog. *)
Lemma detail_views_show_the_row_witness :
  (forall a, In a (Author_objects example_catalog) ->
     AuthorDetailView.get (Author.id a) example_catalog
     = render "catalog/author_detail.html" a) /\
  (forall b, In b (Book_objects example_catalog) ->
     BookDetailView.get (Book.id b) example_catalog
     = render "catalog/book_detail.html" b) /\
  (forall pk,
     (forall a, In a (Author_objects example_catalog) -> Author.id a <> pk) ->
     AuthorDetailView.get pk example_catalog = HttpResponseNotFound) /\
  (forall pk,
     (forall b, In b (Book_objects example_catalog) -> Book.id b <> pk) ->
     BookDetailView.get pk example_catalog = HttpResponseNotFound).
Proof.
  apply (detail_views_show_the_row example_catalog).
  - simpl. repeat constructor. simpl. tauto.
  - simpl. repeat constructor. simpl. tauto.
Defined.

(** X6, on the librarian, who is staff. *)
Lemma staff_flag_opens_no_view_witness :
  User.is_staff librarian = true /\
  @AuthorCreate.post example_urls (post_of (LoggedIn librarian) author_form)
    example_catalog = (HttpResponseForbidden, example_catalog).
Proof.
  split; [reflexivity |].
  refine (proj1 (@staff_flag_opens_no_view example_urls binary_nulls_first
                   librarian example_catalog [] 1 1%nat author_form
                   short_isbn_form
                   {| BookInstanceForm.id := None;
                      BookInstanceForm.book := None;
                      BookInstanceForm.imprint := "";
                      BookInstanceForm.due_back := date_empty;
                      BookInstanceForm.borrower := None;
                      BookInstanceForm.status := None;
                      BookInstanceForm.language := "" |} "" _ _)).
  - reflexivity.
  - simpl. intros [E | []]. discriminate E.
Defined.

(** X10, on the book with the short isbn. *)
Lemma BookCreate_stores_before_redirect_witness :
  let request := post_of (LoggedIn superuser) short_isbn_form in
  let object := fst (BookForm.save None short_isbn_form catalog_without_books)
  in
  snd (@BookCreate.post example_urls request catalog_without_books)
  = short_isbn_catalog /\
  BookDetailView.get (Book.id object)
    (snd (@BookCreate.post example_urls request catalog_without_books))
  = render "catalog/book_detail.html" object /\
  fst (@BookCreate.post example_urls request catalog_without_books)
  = HttpResponseServerError NoReverseMatch.
Proof.
  apply (@BookCreate_stores_before_redirect example_urls
           (post_of (LoggedIn superuser) short_isbn_form)
           catalog_without_books short_isbn_form).
  - reflexivity.
  - reflexivity.
Defined.

(** X11, on the renewal by the librarian. *)
Lemma renewed_copy_overdue_after_new_date_witness :
  BookInstance.is_overdue example_today (copy 7 (Some 739014) (Some 3) "o")
  = (739014 <? example_today) /\
  BookInstance.is_overdue 739015 (copy 7 (Some 739014) (Some 3) "o")
  = (739014 <? 739015).
Proof.
  assert (forall day,
            BookInstance.is_overdue day (copy 7 (Some 739014) (Some 3) "o")
            = (739014 <? day)) as Hw.
  { intros day.
    apply (@renewed_copy_overdue_after_new_date example_urls example_forms
             example_today 7
             (post_request (LoggedIn librarian) [("renewal_date", "739014")])
             example_catalog "/catalog/borrowed/" (Some 739014)).
    - reflexivity.
    - reflexivity.
    - left. reflexivity.
    - reflexivity. }
  split; apply Hw.
Defined.

(** X13, on the catalog built through the views. *)
Lemma served_integrity_witness :
  @served example_urls example_forms stocked_catalog /\
  integrity stocked_catalog.
Proof.
  split; [exact stocked_catalog_served |].
  exact (@served_integrity example_urls example_forms stocked_catalog
           stocked_catalog_served).
Defined.

(** X14, on the catalog built through the views. *)
Lemma served_well_formed_witness :
  @served example_urls example_forms stocked_catalog /\
  well_formed stocked_catalog.
Proof.
  split; [exact stocked_catalog_served |].
  exact (@served_well_formed example_urls example_forms stocked_catalog
           stocked_catalog_served).
Defined.

(** X15, on the first copy of the example catalog. *)
Lemma BookInstance_methods_in_a_sound_catalog_witness :
  exists b,
    In b (Book_objects example_catalog) /\
    BookInstance.book (copy 7 (Some 739010) (Some 3) "o") = Some (Book.id b) /\
    BookInstance_str (copy 7 (Some 739010) (Some 3) "o") example_catalog
    = inr (String.append (UUID_str 7)
             (String.append " (" (String.append (Book.title b) ")"))) /\
    @BookInstance_get_absolute_url example_urls
      (copy 7 (Some 739010) (Some 3) "o") example_catalog
    = match @reverse example_urls "book-detail" [str_Z (Book.id b)] with
      | Some url => inr url
      | None => inl NoReverseMatchError
      end /\
    (forall j, In j (BookInstance_objects example_catalog) ->
       BookInstance.book j
       = BookInstance.book (copy 7 (Some 739010) (Some 3) "o") ->
       @BookInstance_get_absolute_url example_urls j example_catalog
       = @BookInstance_get_absolute_url example_urls
           (copy 7 (Some 739010) (Some 3) "o") example_catalog).
Proof.
  apply (@BookInstance_methods_in_a_sound_catalog example_urls
           example_catalog (copy 7 (Some 739010) (Some 3) "o")).
  - exact example_catalog_integrity.
  - left. reflexivity.
Defined.
